(** * Battery-cycle preprocessing: a shallow embedding of
      [Preprocessing/preprocessing_battery_data_csv.py]

    The script decodes one MATLAB [.mat] record per battery, computes
    avg/min/max statistics for three sensor channels of every charge and
    discharge cycle, pairs the i-th charge with the i-th discharge, and labels
    every row of the concatenated table with its Remaining Useful Life.

    - Numbers are IEEE binary64 values (numpy's float64), modelled by Rocq's
      primitive floats, so that rounding, overflow and NaN are those of the
      program.
    - Python exceptions are modelled by a small error monad; a function that
      can raise returns a [result].
    - Python dictionaries are insertion-ordered association lists.
    - The arrays [scipy.io.loadmat] returns are lists of rows, so that the
      indexing [[0]] and [[0, 0]] of the source can fail as it does there.
    - The host ([loadmat], [os.path.basename], [os.path.join], the directory
      walk) is a parameter of [process_battery] and [main].  Console output,
      [os.makedirs] and the CSV writer are left out: [main] returns the table
      it hands to [to_csv]. *)

From Stdlib Require Import List String Ascii Bool ZArith Lia.
From Stdlib Require Import Floats Uint63.
Import ListNotations.

Local Open Scope list_scope.
Local Open Scope string_scope.
Local Open Scope nat_scope.

(** ** Python exceptions *)

Module Py.

(** The exception classes the modelled code can meet; all of them are
    subclasses of [Exception]. *)
Inductive exn : Type :=
| IndexError   (* index out of bounds *)
| ValueError   (* numpy: no field of that name, zero-size reduction *)
| KeyError     (* pandas: no column of that name *)
| TypeError    (* operation on a value of the wrong kind *)
| OSError.     (* the file could not be read *)

Inductive result (A : Type) : Type :=
| Ok (a : A)
| Raise (e : exn).
Arguments Ok {A} a.
Arguments Raise {A} e.

Definition bind {A B} (c : result A) (k : A -> result B) : result B :=
  match c with
  | Ok a => k a
  | Raise e => Raise e
  end.

(** [try: v = c  except Exception: v = dflt] *)
Definition try_except {A} (c : result A) (dflt : A) : A :=
  match c with
  | Ok a => a
  | Raise _ => dflt
  end.

(** A [for] loop whose body may raise: the first exception ends the loop. *)
Fixpoint for_each {S X} (body : S -> X -> result S) (xs : list X) (st : S)
  : result S :=
  match xs with
  | [] => Ok st
  | x :: rest => bind (body st x) (for_each body rest)
  end.


End Py.
Import Py.

Notation "x <- c ;; k" := (Py.bind c (fun x => k))
  (at level 61, c at next level, right associativity).

(** ** Python dictionaries: insertion-ordered, one entry per key *)

Definition dict (V : Type) : Type := list (string * V).

(** [d[k] = v]: an existing key keeps its position, a new key goes last. *)
Fixpoint dict_set {V} (k : string) (v : V) (d : dict V) : dict V :=
  match d with
  | [] => [(k, v)]
  | (k', v') :: rest =>
      if String.eqb k' k then (k', v) :: rest
      else (k', v') :: dict_set k v rest
  end.

(** [d.update(e)], also the [**e] of a dictionary display. *)
Definition dict_update {V} (d e : dict V) : dict V :=
  fold_left (fun acc kv => dict_set (fst kv) (snd kv) acc) e d.

Fixpoint dict_get {V} (k : string) (d : dict V) : option V :=
  match d with
  | [] => None
  | (k', v) :: rest => if String.eqb k' k then Some v else dict_get k rest
  end.

Definition dict_keys {V} (d : dict V) : list string := map fst d.

Definition dict_has {V} (k : string) (d : dict V) : bool :=
  match dict_get k d with Some _ => true | None => false end.

(** ** numpy on one-dimensional float64 arrays

    numpy is a library the script calls; its reductions are modelled after
    what they compute on a contiguous float64 array. *)

Module np.

Definition nan : float := PrimFloat.nan.

Definition float_of_nat (n : nat) : float :=
  PrimFloat.of_uint63 (Uint63.of_Z (Z.of_nat n)).

(** *** [np.add.reduce]: numpy's pairwise summation

    Fewer than 8 items are added in a plain loop; up to 128 items go
    through eight interleaved accumulators; longer arrays are halved (the
    cut rounded down to a multiple of 8). *)

Definition sum_loop (res : float) (a : list float) : float :=
  fold_left PrimFloat.add a res.

Fixpoint add_lanes (r a : list float) : list float :=
  match r, a with
  | x :: r', y :: a' => PrimFloat.add x y :: add_lanes r' a'
  | _, _ => r
  end.

Fixpoint add_blocks (nblocks : nat) (r a : list float)
  : list float * list float :=
  match nblocks with
  | O => (r, a)
  | S k => add_blocks k (add_lanes r (firstn 8 a)) (skipn 8 a)
  end.

Definition lane (r : list float) (i : nat) : float := nth i r PrimFloat.zero.

Definition unrolled_sum (a : list float) : float :=
  let n := List.length a in
  let '(r, rest) := add_blocks (n / 8 - 1) (firstn 8 a) (skipn 8 a) in
  let res :=
    PrimFloat.add
      (PrimFloat.add (PrimFloat.add (lane r 0) (lane r 1))
                     (PrimFloat.add (lane r 2) (lane r 3)))
      (PrimFloat.add (PrimFloat.add (lane r 4) (lane r 5))
                     (PrimFloat.add (lane r 6) (lane r 7))) in
  sum_loop res rest.

(** The recursion is on [fuel]; the length of the array is enough of it
    (lemma [pairwise_sum_fuel]), so the branch of no fuel is never the one
    that counts. *)
Fixpoint pairwise_sum (fuel : nat) (a : list float) : float :=
  let n := List.length a in
  if n <? 8 then sum_loop PrimFloat.neg_zero a
  else if n <=? 128 then unrolled_sum a
  else
    match fuel with
    | O => unrolled_sum a
    | S fuel' =>
        let n2 := n / 2 in
        let n2 := n2 - n2 mod 8 in
        PrimFloat.add (pairwise_sum fuel' (firstn n2 a))
                      (pairwise_sum fuel' (skipn n2 a))
    end.

(** The reduction starts from the identity of addition. *)
Definition sum (a : list float) : float :=
  PrimFloat.add PrimFloat.zero (pairwise_sum (List.length a) a).

(** [np.mean]: the sum divided by the item count.  On an empty array the
    quotient 0/0 is NaN; numpy warns and returns it, it does not raise. *)
Definition mean (a : list float) : result float :=
  Ok (PrimFloat.div (sum a) (float_of_nat (List.length a))).

(** [np.minimum] and [np.maximum] as run by a reduction: the accumulator
    stays when it is strictly smaller (larger) or NaN, so a later item wins a
    tie (of the two zeros, say) and a NaN, once met, stays. *)
Definition minimum (io1 in2 : float) : float :=
  if PrimFloat.ltb io1 in2 || PrimFloat.is_nan io1 then io1 else in2.

Definition maximum (io1 in2 : float) : float :=
  if PrimFloat.ltb in2 io1 || PrimFloat.is_nan io1 then io1 else in2.

(** [np.min], [np.max]: the reduction has no identity, so a zero-size
    array raises [ValueError]; otherwise it starts from the first item. *)
Definition min (a : list float) : result float :=
  match a with
  | [] => Raise ValueError
  | x :: rest => Ok (fold_left minimum rest x)
  end.

Definition max (a : list float) : result float :=
  match a with
  | [] => Raise ValueError
  | x :: rest => Ok (fold_left maximum rest x)
  end.

End np.

(** ** Statistical feature functions *)

Definition STAT_FUNCS : list (string * (list float -> result float)) :=
  [ ("avg", np.mean);
    ("min", np.min);
    ("max", np.max) ].

(** [extract_stats(data, prefix)]: one entry per statistic; a statistic that
    raises is stored as NaN. *)
Definition extract_stats (data : list float) (prefix : string) : dict float :=
  fold_left
    (fun features sf =>
       let '(stat_name, func) := sf in
       dict_set (prefix ++ "_" ++ stat_name)
                (try_except (func data) np.nan)
                features)
    STAT_FUNCS [].

(** ** Strings *)

(** [s.split(sep)[0]]: the part of [s] before the first [sep], all of [s]
    when it holds none. *)
Fixpoint split_first (sep : ascii) (s : string) : string :=
  match s with
  | EmptyString => EmptyString
  | String c rest =>
      if Ascii.eqb c sep then EmptyString else String c (split_first sep rest)
  end.

Definition startswith (s pre : string) : bool := String.prefix pre s.

Definition endswith (s suf : string) : bool :=
  (String.length suf <=? String.length s) &&
  String.eqb (substring (String.length s - String.length suf)
                        (String.length suf) s) suf.

(** ** The decoded [.mat] record

    [scipy.io.loadmat] returns a dictionary.  Its internal entries
    ([__header__], [__version__], [__globals__]) hold bytes, a string and a
    list; every MATLAB variable is a two-dimensional array, of numbers or of
    structs.  A MATLAB string is a one-dimensional array of strings with one
    item, or none for the empty string. *)

Definition ndarray2 (A : Type) : Type := list (list A).

(** [cycle["data"][0, 0]]: field name to channel, each channel a 1 x N (or
    empty) numeric array. *)
Definition data_struct : Type := dict (ndarray2 float).

(** One entry of the cycle list; every entry of the struct array has the
    fields [type] and [data]. *)
Record cycle_struct : Type := {
  c_type : list string;
  c_data : ndarray2 data_struct
}.

(** [mat[main_key][0, 0]]: only its [cycle] field is ever read;
    ["cycle" in dtype.names] holds exactly when [m_cycle] is [Some]. *)
Record main_struct : Type := {
  m_cycle : option (ndarray2 cycle_struct)
}.

Inductive mat_value : Type :=
| MMeta                                  (* bytes, str or list of an internal entry *)
| MNumeric (a : ndarray2 float)          (* a numeric MATLAB variable *)
| MStruct (a : ndarray2 main_struct).    (* a MATLAB struct variable *)

Definition mat_dict : Type := dict mat_value.

(** [a[0]] *)
Definition index0 {A} (a : list A) : result A :=
  match a with
  | x :: _ => Ok x
  | [] => Raise IndexError
  end.

(** [a[0, 0]] *)
Definition index00 {A} (a : ndarray2 A) : result A :=
  r <- index0 a ;; index0 r.

(** [a[-1]] *)
Fixpoint index_last {A} (a : list A) : result A :=
  match a with
  | [] => Raise IndexError
  | [x] => Ok x
  | _ :: rest => index_last rest
  end.

(** [data[name]] on a numpy record *)
Definition getfield (data : data_struct) (name : string)
  : result (ndarray2 float) :=
  match dict_get name data with
  | Some ch => Ok ch
  | None => Raise ValueError
  end.

(** [mat[main_key][0, 0]] followed by [.dtype.names]: a record of a struct
    array has field names, a number has [None] for them (and [in None] is a
    [TypeError]), an internal entry cannot be indexed by a pair. *)
Definition main_record (v : mat_value) : result main_struct :=
  match v with
  | MMeta => Raise TypeError
  | MNumeric a => _ <- index00 a ;; Raise TypeError
  | MStruct a => index00 a
  end.

(** ** Tables *)

Inductive cell : Type :=
| CStr (s : string)
| CInt (z : Z)
| CFloat (f : float).

Definition row : Type := dict cell.

(** A [pandas.DataFrame] built from a list of dictionaries, row by row. *)
Definition DataFrame : Type := list row.

(** [df.empty]: no rows, or no columns. *)
Definition df_empty (df : DataFrame) : bool :=
  forallb (fun r => match r with [] => true | _ => false end) df.

Definition as_cells (features : dict float) : row :=
  map (fun kv => (fst kv, CFloat (snd kv))) features.

(** ** Processing one file *)

Definition is_cycle_type (ctype : string) : bool :=
  existsb (String.eqb ctype) ["charge"; "discharge"].

(** The discharge-only labels: the last item of the channel's first row when
    the field exists and that row has items, NaN otherwise. *)
Definition last_or_nan (data : data_struct) (name : string) : result float :=
  if dict_has name data then
    ch <- getfield data name ;;
    r <- index0 ch ;;
    if 0 <? List.length r then
      ch' <- getfield data name ;;
      r' <- index0 ch' ;;
      index_last r'
    else Ok np.nan
  else Ok np.nan.

(** The body of the loop over the cycle list; the state is
    [(rows_charge, rows_discharge)]. *)
Definition cycle_step (st : list (dict float) * list (dict float))
  (cycle : cycle_struct) : result (list (dict float) * list (dict float)) :=
  let '(rows_charge, rows_discharge) := st in
  ctype <- index0 (c_type cycle) ;;
  if negb (is_cycle_type ctype) then Ok st
  else
    data <- index00 (c_data cycle) ;;
    voltage <- (ch <- getfield data "Voltage_measured" ;; index0 ch) ;;
    current <- (ch <- getfield data "Current_measured" ;; index0 ch) ;;
    temp <- (ch <- getfield data "Temperature_measured" ;; index0 ch) ;;
    let prefix := ctype in
    let features := [] in
    let features := dict_update features (extract_stats voltage (prefix ++ "_voltage")) in
    let features := dict_update features (extract_stats current (prefix ++ "_current")) in
    let features := dict_update features (extract_stats temp (prefix ++ "_temp")) in
    if String.eqb ctype "discharge" then
      duration <- last_or_nan data "Time" ;;
      let features := dict_set "discharge_duration_s" duration features in
      capacity <- last_or_nan data "Capacity" ;;
      let features := dict_set "capacity_Ah" capacity features in
      Ok (rows_charge, (rows_discharge ++ [features])%list)
    else
      Ok ((rows_charge ++ [features])%list, rows_discharge).

Definition extract_rows (cycles : list cycle_struct)
  : result (list (dict float) * list (dict float)) :=
  for_each cycle_step cycles ([], []).

(** The dictionary display of one paired row. *)
Definition merged_row (battery_name : string) (idx : nat)
  (rows_charge rows_discharge : list (dict float)) : row :=
  dict_update
    (dict_update
       [("battery", CStr battery_name); ("cycle", CInt (Z.of_nat idx + 1))]
       (as_cells (nth idx rows_charge [])))
    (as_cells (nth idx rows_discharge [])).

Definition pair_rows (battery_name : string)
  (rows_charge rows_discharge : list (dict float)) : DataFrame :=
  let n_pairs := Nat.min (List.length rows_charge) (List.length rows_discharge) in
  if n_pairs =? 0 then []
  else map (fun idx => merged_row battery_name idx rows_charge rows_discharge)
           (seq 0 n_pairs).

(** [next((k for k in mat.keys() if not k.startswith("__")), None)] *)
Definition find_main_key (mat : mat_dict) : option string :=
  match filter (fun k => negb (startswith k "__")) (dict_keys mat) with
  | k :: _ => Some k
  | [] => None
  end.

(** [mat[k]] for a key taken from [mat.keys()] *)
Definition getitem (mat : mat_dict) (k : string) : result mat_value :=
  match dict_get k mat with
  | Some v => Ok v
  | None => Raise KeyError
  end.

(** The first half of [process_battery]: detect the main key and reach its
    cycle list; [None] is the "skipped" return. *)
Definition locate_cycles (mat : mat_dict)
  : result (option (list cycle_struct)) :=
  match find_main_key mat with
  | None => Ok None
  | Some main_key =>
      v <- getitem mat main_key ;;
      s <- main_record v ;;
      match m_cycle s with
      | None => Ok None
      | Some cycle_arr =>
          cycles <- index0 cycle_arr ;;
          Ok (Some cycles)
      end
  end.

(** The second half: the loop over the cycles, then the pairing. *)
Definition process_cycles (battery_name : string) (cycles : list cycle_struct)
  : result DataFrame :=
  rows <- extract_rows cycles ;;
  Ok (pair_rows battery_name (fst rows) (snd rows)).

(** [process_battery] from the decoded record on. *)
Definition process_mat (battery_name : string) (mat : mat_dict)
  : result DataFrame :=
  located <- locate_cycles mat ;;
  match located with
  | None => Ok []
  | Some cycles => process_cycles battery_name cycles
  end.

(** ** Remaining Useful Life *)

(** [x.max()] of a non-empty integer series. *)
Definition series_max (x : list Z) : Z :=
  match x with
  | [] => 0%Z
  | v :: rest => fold_left Z.max rest v
  end.

(** [lambda x: x.max() - x] *)
Definition rul_of_group (x : list Z) : list Z :=
  map (fun v => (series_max x - v)%Z) x.

(** Row positions of the group [g]. *)
Definition group_indices (keys : list string) (g : string) : list nat :=
  filter (fun i => String.eqb (nth i keys "") g) (seq 0 (List.length keys)).

Fixpoint lookup_index (i : nat) (pieces : list (nat * Z)) : option Z :=
  match pieces with
  | [] => None
  | (j, v) :: rest => if i =? j then Some v else lookup_index i rest
  end.

(** [df.groupby(key)[col].transform(f)]: the rows are split by key, [f] runs on
    the values of each group, and every result goes back to the position its
    row has in [df]. *)
Definition groupby_transform (keys : list string) (vals : list Z)
  (f : list Z -> list Z) : list Z :=
  let groups := nodup string_dec keys in
  let pieces :=
    flat_map
      (fun g =>
         let idx := group_indices keys g in
         combine idx (f (map (fun i => nth i vals 0%Z) idx)))
      groups in
  map (fun i => match lookup_index i pieces with Some v => v | None => 0%Z end)
      (seq 0 (List.length keys)).

Fixpoint column_str (name : string) (df : DataFrame) : result (list string) :=
  match df with
  | [] => Ok []
  | r :: rest =>
      match dict_get name r with
      | Some (CStr s) => ss <- column_str name rest ;; Ok (s :: ss)
      | Some _ => Raise TypeError
      | None => Raise KeyError
      end
  end.

Fixpoint column_int (name : string) (df : DataFrame) : result (list Z) :=
  match df with
  | [] => Ok []
  | r :: rest =>
      match dict_get name r with
      | Some (CInt z) => zs <- column_int name rest ;; Ok (z :: zs)
      | Some _ => Raise TypeError
      | None => Raise KeyError
      end
  end.

(** [df[name] = values] *)
Fixpoint assign_column (name : string) (values : list Z) (df : DataFrame)
  {struct df} : DataFrame :=
  match df, values with
  | r :: rest, v :: vs => dict_set name (CInt v) r :: assign_column name vs rest
  | _, _ => df
  end.

(** [final_df["RUL"] = final_df.groupby("battery")["cycle"].transform(...)] *)
Definition add_RUL (final_df : DataFrame) : result DataFrame :=
  keys <- column_str "battery" final_df ;;
  vals <- column_int "cycle" final_df ;;
  Ok (assign_column "RUL" (groupby_transform keys vals rul_of_group) final_df).

(** ** The batch *)

Section Batch.

(** The host: [scipy.io.loadmat], [os.path.basename] and [os.path.join]. *)
Variable loadmat : string -> result mat_dict.
Variable basename : string -> string.
Variable path_join : string -> string -> string.

Definition battery_name_of (mat_path : string) : string :=
  split_first "." (basename mat_path).

Definition process_battery (mat_path : string) : result DataFrame :=
  mat <- loadmat mat_path ;;
  let battery_name := battery_name_of mat_path in
  process_mat battery_name mat.

(** The two nested loops of [main] over what [os.walk] yields, a list of
    [(root, files)]; the state is [all_dfs]. *)
Definition file_step (root : string) (all_dfs : list DataFrame) (file : string)
  : result (list DataFrame) :=
  if endswith file ".mat" then
    let path := path_join root file in
    df <- process_battery path ;;
    if negb (df_empty df) then Ok (all_dfs ++ [df])%list else Ok all_dfs
  else Ok all_dfs.

Definition dir_step (all_dfs : list DataFrame) (entry : string * list string)
  : result (list DataFrame) :=
  for_each (file_step (fst entry)) (snd entry) all_dfs.

(** [main]: [None] is the early return that writes no file, [Some df] the
    table handed to [to_csv]. *)
Definition main (walk : list (string * list string))
  : result (option DataFrame) :=
  all_dfs <- for_each dir_step walk [] ;;
  match all_dfs with
  | [] => Ok None
  | _ =>
      let final_df := List.concat all_dfs in
      final_df' <- add_RUL final_df ;;
      Ok (Some final_df')
  end.

End Batch.

(** [posixpath.basename]: what follows the last ["/"]. *)
Fixpoint after_last_slash (tail p : string) : string :=
  match p with
  | EmptyString => tail
  | String c rest =>
      after_last_slash (if Ascii.eqb c "/" then rest else tail) rest
  end.

Definition posix_basename (p : string) : string := after_last_slash p p.

(** [posixpath.join] of two components *)
Definition posix_join (a b : string) : string :=
  if startswith b "/" then b
  else if String.eqb a "" || endswith a "/" then a ++ b
  else a ++ "/" ++ b.

(** ** Vocabulary of the statements *)

(** The value [extract_stats] stores for each statistic. *)
Definition stat_avg (data : list float) : float := try_except (np.mean data) np.nan.
Definition stat_min (data : list float) : float := try_except (np.min data) np.nan.
Definition stat_max (data : list float) : float := try_except (np.max data) np.nan.

Definition not_nan (x : float) : Prop := PrimFloat.is_nan x = false.

(** The ordering the three statistics are expected to have. *)
Definition stats_ordered (data : list float) (prefix : string) : Prop :=
  exists a m M,
    extract_stats data prefix =
      [ (prefix ++ "_avg", a); (prefix ++ "_min", m); (prefix ++ "_max", M) ] /\
    PrimFloat.leb m a = true /\ PrimFloat.leb a M = true.


(** *** Entries *)

(** [data[name][0]]: the samples of a channel. *)
Definition channel (data : data_struct) (name : string) : result (list float) :=
  ch <- getfield data name ;; index0 ch.

Definition sensor_channels : list string :=
  ["Voltage_measured"; "Current_measured"; "Temperature_measured"].

(** The feature dictionaries, key by key. *)
Definition charge_features (v i t : list float) : dict float :=
  [ ("charge_voltage_avg", stat_avg v);
    ("charge_voltage_min", stat_min v);
    ("charge_voltage_max", stat_max v);
    ("charge_current_avg", stat_avg i);
    ("charge_current_min", stat_min i);
    ("charge_current_max", stat_max i);
    ("charge_temp_avg", stat_avg t);
    ("charge_temp_min", stat_min t);
    ("charge_temp_max", stat_max t) ].

Definition discharge_features (v i t : list float) (duration capacity : float)
  : dict float :=
  [ ("discharge_voltage_avg", stat_avg v);
    ("discharge_voltage_min", stat_min v);
    ("discharge_voltage_max", stat_max v);
    ("discharge_current_avg", stat_avg i);
    ("discharge_current_min", stat_min i);
    ("discharge_current_max", stat_max i);
    ("discharge_temp_avg", stat_avg t);
    ("discharge_temp_min", stat_min t);
    ("discharge_temp_max", stat_max t);
    ("discharge_duration_s", duration);
    ("capacity_Ah", capacity) ].

Definition is_charge_row (f : dict float) : Prop :=
  exists v i t, f = charge_features v i t.

Definition is_discharge_row (f : dict float) : Prop :=
  exists v i t du ca, f = discharge_features v i t du ca.

(** What one pass of the loop body does with an entry: [cycle_step] is
    [cycle_outcome] followed by [push] (lemma [cycle_step_outcome]). *)
Inductive outcome : Type :=
| Skipped
| ChargeRow (features : dict float)
| DischargeRow (features : dict float).

Definition cycle_outcome (cycle : cycle_struct) : result outcome :=
  ctype <- index0 (c_type cycle) ;;
  if negb (is_cycle_type ctype) then Ok Skipped
  else
    data <- index00 (c_data cycle) ;;
    voltage <- channel data "Voltage_measured" ;;
    current <- channel data "Current_measured" ;;
    temp <- channel data "Temperature_measured" ;;
    if String.eqb ctype "discharge" then
      duration <- last_or_nan data "Time" ;;
      capacity <- last_or_nan data "Capacity" ;;
      Ok (DischargeRow (discharge_features voltage current temp duration capacity))
    else Ok (ChargeRow (charge_features voltage current temp)).

Definition push (st : list (dict float) * list (dict float)) (o : outcome)
  : list (dict float) * list (dict float) :=
  match o with
  | Skipped => st
  | ChargeRow f => (fst st ++ [f], snd st)%list
  | DischargeRow f => (fst st, snd st ++ [f])%list
  end.

(** The outcomes of a whole cycle list; the first exception ends it. *)
Fixpoint outcomes (cycles : list cycle_struct) : result (list outcome) :=
  match cycles with
  | [] => Ok []
  | c :: rest =>
      o <- cycle_outcome c ;;
      os <- outcomes rest ;;
      Ok (o :: os)
  end.

Definition charge_rows (os : list outcome) : list (dict float) :=
  flat_map (fun o => match o with ChargeRow f => [f] | _ => [] end) os.

Definition discharge_rows (os : list outcome) : list (dict float) :=
  flat_map (fun o => match o with DischargeRow f => [f] | _ => [] end) os.

(** The entry is typed exactly [t]. *)
Definition has_type (t : string) (cycle : cycle_struct) : bool :=
  match c_type cycle with
  | ctype :: _ => String.eqb ctype t
  | [] => false
  end.

(** The type label of an entry as a string; a MATLAB empty string is an
    array without items. *)
Definition type_label (cycle : cycle_struct) : string :=
  match c_type cycle with
  | ctype :: _ => ctype
  | [] => ""
  end.

(** Following the text of the claim: the type label is not exactly
    "charge" or "discharge". *)
Definition other_typed (cycle : cycle_struct) : bool :=
  negb (String.eqb (type_label cycle) "charge") &&
  negb (String.eqb (type_label cycle) "discharge").

(** The type array has an item, and that label is neither "charge" nor
    "discharge". *)
Definition is_junk (cycle : cycle_struct) : bool :=
  match c_type cycle with
  | ctype :: _ =>
      negb (String.eqb ctype "charge") && negb (String.eqb ctype "discharge")
  | [] => false
  end.

Definition not_junk (cycle : cycle_struct) : bool := negb (is_junk cycle).

(** *** Well-formed entries

    A channel, as [loadmat] decodes a MATLAB row vector, is an array with at
    least one row; that row may have no items.  An empty matrix [[]] decodes
    to an array without rows. *)

Definition row_vector (data : data_struct) (name : string) : bool :=
  match dict_get name data with
  | Some (_ :: _) => true
  | _ => false
  end.

Definition optional_row_vector (data : data_struct) (name : string) : bool :=
  match dict_get name data with
  | Some [] => false
  | _ => true
  end.

(** The entry has a type label; if that is "charge" or "discharge", its data
    record exists and holds the three sensor channels as row vectors, and a
    discharge entry holds [Time] and [Capacity] as row vectors or not at
    all. *)
Definition entry_well_formed (cycle : cycle_struct) : bool :=
  match c_type cycle with
  | [] => false
  | ctype :: _ =>
      if is_cycle_type ctype then
        match c_data cycle with
        | (data :: _) :: _ =>
            forallb (row_vector data) sensor_channels &&
            (if String.eqb ctype "discharge"
             then optional_row_vector data "Time" &&
                  optional_row_vector data "Capacity"
             else true)
        | _ => false
        end
      else true
  end.

(** What the two label tests of the loop compute on an array that has a
    first row: the last item of that row, NaN when the field is absent or the
    row has no items. *)
Definition first_row_last (data : data_struct) (name : string) : float :=
  match dict_get name data with
  | Some (r :: _) =>
      match r with
      | [] => np.nan
      | _ :: _ => last r np.nan
      end
  | _ => np.nan
  end.





(** *** Files and tables *)




(** A row that holds a battery name and a cycle number. *)
Definition keyed_row (r : row) : bool :=
  match dict_get "battery" r, dict_get "cycle" r with
  | Some (CStr _), Some (CInt _) => true
  | _, _ => false
  end.

(** The cycle values of the group of [g], and their maximum. *)
Definition group_values (keys : list string) (vals : list Z) (g : string)
  : list Z :=
  map (fun j => nth j vals 0%Z) (group_indices keys g).

Definition group_max (keys : list string) (vals : list Z) (g : string) : Z :=
  series_max (group_values keys vals g).

(** ** Records for examples *)

(** The binary64 value nearest to 0.1. *)
Definition tenth : float := 0x1.999999999999ap-4%float.

(** An entry with the given samples under each of the given channel names,
    every channel a row vector. *)
Definition entry (ctype : string) (channels : list (string * list float))
  : cycle_struct :=
  {| c_type := [ctype];
     c_data := [[ map (fun ch => (fst ch, [snd ch])) channels ]] |}.

Definition full_charge : cycle_struct :=
  entry "charge"
    [ ("Voltage_measured", [4%float; 4.5%float]);
      ("Current_measured", [1%float; 1.5%float]);
      ("Temperature_measured", [24%float; 25%float]);
      ("Time", [0%float; 10%float]) ].

Definition full_discharge : cycle_struct :=
  entry "discharge"
    [ ("Voltage_measured", [4%float; 3%float]);
      ("Current_measured", [(-2)%float; (-2)%float]);
      ("Temperature_measured", [24%float; 30%float]);
      ("Time", [0%float; 10%float; 20%float]);
      ("Capacity", [1.5%float]) ].

Definition second_discharge : cycle_struct :=
  entry "discharge"
    [ ("Voltage_measured", [4%float; 2.5%float]);
      ("Current_measured", [(-2)%float; (-2)%float]);
      ("Temperature_measured", [25%float; 31%float]);
      ("Time", [0%float; 10%float; 19%float]);
      ("Capacity", [1.25%float]) ].

Definition discharge_without_capacity : cycle_struct :=
  entry "discharge"
    [ ("Voltage_measured", [4%float; 2.5%float]);
      ("Current_measured", [(-2)%float; (-2)%float]);
      ("Temperature_measured", [25%float; 31%float]);
      ("Time", [0%float; 10%float; 18%float]) ].

(** A charge entry without a [Voltage_measured] field. *)
Definition charge_without_voltage : cycle_struct :=
  entry "charge"
    [ ("Current_measured", [1%float; 1.5%float]);
      ("Temperature_measured", [24%float; 25%float]) ].


(** An impedance measurement: other fields, no sensor channels. *)
Definition impedance : cycle_struct :=
  entry "impedance" [ ("Sense_current", [1%float]) ].

(** Two charge entries and three discharge entries, the third discharge
    without [Capacity]. *)
Definition B1_cycles : list cycle_struct :=
  [ full_charge; full_discharge; impedance; full_charge; second_discharge;
    discharge_without_capacity ].

(** A file holding one battery variable with the given cycle list. *)
Definition battery_file (key : string) (cycles : list cycle_struct) : mat_dict :=
  [ ("__header__", MMeta);
    ("__version__", MMeta);
    ("__globals__", MMeta);
    (key, MStruct [[ {| m_cycle := Some [cycles] |} ]]) ].

Definition two_variable_file : mat_dict :=
  [ ("__header__", MMeta);
    ("B0005", MStruct [[ {| m_cycle := Some [[full_charge; full_discharge]] |} ]]);
    ("__version__", MMeta);
    ("B0006", MStruct [[ {| m_cycle := Some [[impedance]] |} ]]) ].

Definition no_cycle_file : mat_dict :=
  [ ("__header__", MMeta); ("__version__", MMeta); ("__globals__", MMeta);
    ("B0007", MStruct [[ {| m_cycle := None |} ]]) ].

Definition only_internal_file : mat_dict :=
  [ ("__header__", MMeta); ("__version__", MMeta); ("__globals__", MMeta) ].

(** A small file system. *)
Definition demo_loadmat (path : string) : result mat_dict :=
  if String.eqb path "/data/B1.mat" then Ok (battery_file "B1" B1_cycles)
  else if String.eqb path "/data/B0007.mat" then Ok no_cycle_file
  else if String.eqb path "/data/B0008.mat" then Ok only_internal_file
  else if String.eqb path "/data/rerun/B1.v2.mat" then
    Ok (battery_file "B1" [full_charge; full_discharge; full_charge;
                           second_discharge; full_charge; full_discharge])
  else Raise OSError.

Definition demo_walk : list (string * list string) :=
  [ ("/data", ["B1.mat"; "B0007.mat"; "README.txt"]);
    ("/data/rerun", ["B1.v2.mat"]) ].

(** ** Vocabulary of the further properties *)

(** The columns of a file's table, in order. *)
Definition paired_columns : list string :=
  [ "battery"; "cycle";
    "charge_voltage_avg"; "charge_voltage_min"; "charge_voltage_max";
    "charge_current_avg"; "charge_current_min"; "charge_current_max";
    "charge_temp_avg"; "charge_temp_min"; "charge_temp_max";
    "discharge_voltage_avg"; "discharge_voltage_min"; "discharge_voltage_max";
    "discharge_current_avg"; "discharge_current_min"; "discharge_current_max";
    "discharge_temp_avg"; "discharge_temp_min"; "discharge_temp_max";
    "discharge_duration_s"; "capacity_Ah" ].

Definition is_mat_file (file : string) : bool := endswith file ".mat".

(** The paths [main] hands to [process_battery], in the order of the walk. *)
Definition mat_paths (path_join : string -> string -> string)
  (walk : list (string * list string)) : list string :=
  flat_map
    (fun entry => map (path_join (fst entry)) (filter is_mat_file (snd entry)))
    walk.

(** What the inner loop of [main] does with one path. *)
Definition path_step (loadmat : string -> result mat_dict)
  (basename : string -> string) (all_dfs : list DataFrame) (mat_path : string)
  : result (list DataFrame) :=
  df <- process_battery loadmat basename mat_path ;;
  if negb (df_empty df) then Ok (all_dfs ++ [df])%list else Ok all_dfs.

(** The table of one file, when [process_battery] returns one. *)
Definition table_of (loadmat : string -> result mat_dict)
  (basename : string -> string) (mat_path : string) : DataFrame :=
  try_except (process_battery loadmat basename mat_path) [].

(** The tables of all the files, one after the other. *)
Definition batch_table (loadmat : string -> result mat_dict)
  (basename : string -> string) (path_join : string -> string -> string)
  (walk : list (string * list string)) : DataFrame :=
  flat_map (table_of loadmat basename) (mat_paths path_join walk).


(** A host on which a text file could be decoded as a battery record. *)
Definition demo_loadmat_txt (path : string) : result mat_dict :=
  if String.eqb path "/data/README.txt"
  then Ok (battery_file "README" [full_charge; full_discharge])
  else demo_loadmat path.

(** A walk that meets a file [loadmat] cannot read. *)
Definition demo_walk_gone : list (string * list string) :=
  [ ("/data", ["B1.mat"; "gone.mat"; "B0007.mat"]);
    ("/data/rerun", ["B1.v2.mat"]) ].

(** A host with two batteries of different names. *)
Definition lab_loadmat (path : string) : result mat_dict :=
  if String.eqb path "/lab/B5.mat" then
    Ok (battery_file "B5" [full_charge; full_discharge; full_charge;
                           second_discharge; full_charge; full_discharge])
  else if String.eqb path "/lab/B6.mat" then
    Ok (battery_file "B6" [full_charge; second_discharge])
  else Raise OSError.

Definition lab_walk : list (string * list string) :=
  [ ("/lab", ["B5.mat"; "notes.md"; "B6.mat"]) ].


(** An entry whose type label is the empty string. *)
Definition unlabelled : cycle_struct :=
  {| c_type := [];
     c_data := [[ [ ("Sense_current", [[1%float]]) ] ]] |}.



(** Some item of the array is NaN. *)
Definition has_nan (a : list float) : Prop :=
  exists x, In x a /\ PrimFloat.is_nan x = true.

(** The string holds no [c]. *)
Definition without_char (c : ascii) (s : string) : bool :=
  forallb (fun x => negb (Ascii.eqb x c)) (list_ascii_of_string s).

(** * Properties *)

(** ** The error monad and loops *)

Lemma for_each_app {S X} (body : S -> X -> result S) (xs ys : list X) (st : S) :
  for_each body (xs ++ ys) st = Py.bind (for_each body xs st) (for_each body ys).
Proof.
  revert st; induction xs as [| x xs IH]; intros st; simpl.
  - reflexivity.
  - destruct (body st x) as [st' | e]; simpl; [apply IH | reflexivity].
Qed.


(** ** Strings and dictionary keys *)

Lemma append_eqb_l (p a b : string) :
  String.eqb (p ++ a) (p ++ b) = String.eqb a b.
Proof.
  induction p as [| c p IH]; simpl.
  - reflexivity.
  - rewrite Ascii.eqb_refl. exact IH.
Qed.

Lemma append_assoc (a b c : string) : ((a ++ b) ++ c = a ++ (b ++ c))%string.
Proof. induction a as [| x a IH]; simpl; [reflexivity | now rewrite IH]. Qed.

(** Decide the comparisons of literal keys that a goal mentions. *)
Ltac eval_key_tests :=
  repeat match goal with
    | |- context [String.eqb ?a ?b] =>
        let v := eval vm_compute in (String.eqb a b) in
        match v with
        | true => change (String.eqb a b) with true
        | false => change (String.eqb a b) with false
        end
    end;
  cbv iota.

(** ** [extract_stats] *)

(** Whatever the data, the result has the three keys, in the order of
    [STAT_FUNCS]. *)
Lemma extract_stats_eq (data : list float) (prefix : string) :
  extract_stats data prefix =
  [ (prefix ++ "_avg", stat_avg data);
    (prefix ++ "_min", stat_min data);
    (prefix ++ "_max", stat_max data) ].
Proof.
  unfold extract_stats, STAT_FUNCS, stat_avg, stat_min, stat_max.
  cbn [fold_left]. cbn [String.append].
  repeat (cbn [dict_set]; rewrite ?append_eqb_l; eval_key_tests).
  reflexivity.
Qed.

(** ** The fuel of [pairwise_sum]

    The halves of an array of more than 128 items are shorter than it, so a
    fuel of its length is never used up: any larger fuel gives the same sum. *)

Lemma pairwise_sum_fuel (fuel1 fuel2 : nat) (a : list float) :
  List.length a <= fuel1 -> List.length a <= fuel2 ->
  np.pairwise_sum fuel1 a = np.pairwise_sum fuel2 a.
Proof.
  revert fuel2 a; induction fuel1 as [| fuel1 IH]; intros fuel2 a H1 H2.
  - assert (Hlen : List.length a = 0) by lia.
    destruct fuel2; cbn [np.pairwise_sum]; rewrite Hlen; reflexivity.
  - destruct fuel2 as [| fuel2].
    + assert (Hlen : List.length a = 0) by lia.
      cbn [np.pairwise_sum]. rewrite Hlen. reflexivity.
    + cbn [np.pairwise_sum].
      destruct (List.length a <? 8) eqn:E8; [reflexivity |].
      destruct (List.length a <=? 128) eqn:E128; [reflexivity |].
      apply Nat.leb_gt in E128.
      assert (Hcut : 0 < List.length a / 2 - (List.length a / 2) mod 8
                     < List.length a).
      { pose proof (Nat.div_mod_eq (List.length a) 2).
        pose proof (Nat.mod_upper_bound (List.length a) 2).
        pose proof (Nat.mod_upper_bound (List.length a / 2) 8). lia. }
      f_equal; apply IH;
        rewrite ?length_firstn, ?length_skipn; lia.
Qed.

(** ** The order of binary64 values

    [PrimFloat.leb] is specified by [SFleb] on the decoded value; away from
    NaN it is a total preorder. *)

Module FloatOrder.

Ltac cmp_cases :=
  repeat match goal with
    | |- context [Z.compare ?a ?b] => destruct (Z.compare_spec a b)
    | H : context [Z.compare ?a ?b] |- _ => destruct (Z.compare_spec a b)
    | |- context [Pos.compare ?a ?b] => destruct (Pos.compare_spec a b)
    | H : context [Pos.compare ?a ?b] |- _ => destruct (Pos.compare_spec a b)
    end.

Lemma SFleb_refl (x : spec_float) : x <> S754_nan -> SFleb x x = true.
Proof.
  unfold SFleb, SFcompare.
  destruct x as [s | s | | s m e]; try congruence; intros _;
    try (destruct s; reflexivity).
  destruct s; rewrite Z.compare_refl;
    change (Pos.compare_cont Eq m m) with (Pos.compare m m);
    rewrite Pos.compare_refl; reflexivity.
Qed.

Lemma SFleb_total (x y : spec_float) :
  x <> S754_nan -> y <> S754_nan -> SFleb x y = false -> SFleb y x = true.
Proof.
  unfold SFleb, SFcompare.
  destruct x as [s1 | s1 | | s1 m1 e1], y as [s2 | s2 | | s2 m2 e2];
    try congruence; intros _ _;
    try (destruct s1; try destruct s2; simpl; congruence);
    try (destruct s2; simpl; congruence).
  change (Pos.compare_cont Eq m1 m2) with (Pos.compare m1 m2).
  change (Pos.compare_cont Eq m2 m1) with (Pos.compare m2 m1).
  destruct s1, s2; simpl; try congruence; cmp_cases; simpl;
    try congruence; try lia.
Qed.

Lemma SFleb_trans (x y z : spec_float) :
  SFleb x y = true -> SFleb y z = true -> SFleb x z = true.
Proof.
  unfold SFleb, SFcompare.
  destruct x as [s1 | s1 | | s1 m1 e1], y as [s2 | s2 | | s2 m2 e2],
           z as [s3 | s3 | | s3 m3 e3];
    try congruence;
    try (destruct s1; try destruct s2; try destruct s3; simpl; congruence);
    try (destruct s2; try destruct s3; simpl; congruence);
    try (destruct s3; simpl; congruence).
  change (Pos.compare_cont Eq m1 m2) with (Pos.compare m1 m2).
  change (Pos.compare_cont Eq m2 m3) with (Pos.compare m2 m3).
  change (Pos.compare_cont Eq m1 m3) with (Pos.compare m1 m3).
  destruct s1, s2, s3; simpl; try congruence; cmp_cases; simpl;
    try congruence; try lia.
Qed.

Lemma not_nan_spec (x : float) : not_nan x -> Prim2SF x <> S754_nan.
Proof.
  unfold not_nan, PrimFloat.is_nan. rewrite FloatAxioms.eqb_spec. intros H E.
  rewrite E in H. discriminate H.
Qed.

Lemma leb_refl (x : float) : not_nan x -> PrimFloat.leb x x = true.
Proof. intros H. rewrite FloatAxioms.leb_spec. apply SFleb_refl, not_nan_spec, H. Qed.

Lemma leb_total (x y : float) :
  not_nan x -> not_nan y -> PrimFloat.leb x y = false -> PrimFloat.leb y x = true.
Proof.
  intros Hx Hy. rewrite !FloatAxioms.leb_spec.
  apply SFleb_total; apply not_nan_spec; assumption.
Qed.

Lemma SFltb_leb (x y : spec_float) : SFltb x y = true -> SFleb x y = true.
Proof.
  unfold SFltb, SFleb. destruct (SFcompare x y) as [[| |] |]; congruence.
Qed.

Lemma SFltb_false_leb (x y : spec_float) :
  x <> S754_nan -> y <> S754_nan -> SFltb x y = false -> SFleb y x = true.
Proof.
  unfold SFltb, SFleb, SFcompare.
  destruct x as [s1 | s1 | | s1 m1 e1], y as [s2 | s2 | | s2 m2 e2];
    try congruence; intros _ _;
    try (destruct s1; try destruct s2; simpl; congruence);
    try (destruct s2; simpl; congruence).
  change (Pos.compare_cont Eq m1 m2) with (Pos.compare m1 m2).
  change (Pos.compare_cont Eq m2 m1) with (Pos.compare m2 m1).
  destruct s1, s2; simpl; try congruence; cmp_cases; simpl;
    try congruence; try lia.
Qed.

Lemma ltb_leb (x y : float) :
  PrimFloat.ltb x y = true -> PrimFloat.leb x y = true.
Proof. rewrite FloatAxioms.ltb_spec, FloatAxioms.leb_spec. apply SFltb_leb. Qed.

Lemma ltb_false_leb (x y : float) :
  not_nan x -> not_nan y -> PrimFloat.ltb x y = false -> PrimFloat.leb y x = true.
Proof.
  intros Hx Hy. rewrite FloatAxioms.ltb_spec, FloatAxioms.leb_spec.
  apply SFltb_false_leb; apply not_nan_spec; assumption.
Qed.

Lemma leb_trans (x y z : float) :
  PrimFloat.leb x y = true -> PrimFloat.leb y z = true -> PrimFloat.leb x z = true.
Proof. rewrite !FloatAxioms.leb_spec. apply SFleb_trans. Qed.

End FloatOrder.
Import FloatOrder.

(** ** [np.min] and [np.max] on data without NaN *)

Lemma fold_minimum_spec (rest : list float) (x : float) :
  not_nan x -> Forall not_nan rest ->
  let m := fold_left np.minimum rest x in
  In m (x :: rest) /\ not_nan m /\
  Forall (fun y => PrimFloat.leb m y = true) (x :: rest).
Proof.
  revert x; induction rest as [| y rest IH]; intros x Hx Hrest; simpl.
  - repeat split; [now left | exact Hx |].
    constructor; [apply leb_refl, Hx | constructor].
  - inversion Hrest as [| ? ? Hy Hrest']; subst.
    replace (np.minimum x y) with (if PrimFloat.ltb x y then x else y)
      by (unfold np.minimum; rewrite Hx, orb_false_r; reflexivity).
    destruct (PrimFloat.ltb x y) eqn:Hlt;
      [pose proof (ltb_leb x y Hlt) as Hxy
      | pose proof (ltb_false_leb x y Hx Hy Hlt) as Hyx].
    + destruct (IH x Hx Hrest') as (Hin & Hm & Hall).
      repeat split; [| exact Hm |].
      * simpl in Hin. destruct Hin as [<- | Hin]; [now left | now right; right].
      * inversion Hall as [| ? ? Hmx Hall']; subst.
        constructor; [exact Hmx |].
        constructor; [eapply leb_trans; eassumption | exact Hall'].
    + destruct (IH y Hy Hrest') as (Hin & Hm & Hall).
      repeat split; [now right | exact Hm |].
      inversion Hall as [| ? ? Hmy Hall']; subst.
      constructor; [| constructor; assumption].
      eapply leb_trans; [exact Hmy |]. exact Hyx.
Qed.

Lemma fold_maximum_spec (rest : list float) (x : float) :
  not_nan x -> Forall not_nan rest ->
  let m := fold_left np.maximum rest x in
  In m (x :: rest) /\ not_nan m /\
  Forall (fun y => PrimFloat.leb y m = true) (x :: rest).
Proof.
  revert x; induction rest as [| y rest IH]; intros x Hx Hrest; simpl.
  - repeat split; [now left | exact Hx |].
    constructor; [apply leb_refl, Hx | constructor].
  - inversion Hrest as [| ? ? Hy Hrest']; subst.
    replace (np.maximum x y) with (if PrimFloat.ltb y x then x else y)
      by (unfold np.maximum; rewrite Hx, orb_false_r; reflexivity).
    destruct (PrimFloat.ltb y x) eqn:Hlt;
      [pose proof (ltb_leb y x Hlt) as Hyx
      | pose proof (ltb_false_leb y x Hy Hx Hlt) as Hxy].
    + destruct (IH x Hx Hrest') as (Hin & Hm & Hall).
      repeat split; [| exact Hm |].
      * simpl in Hin. destruct Hin as [<- | Hin]; [now left | now right; right].
      * inversion Hall as [| ? ? Hxm Hall']; subst.
        constructor; [exact Hxm |].
        constructor; [eapply leb_trans; eassumption | exact Hall'].
    + destruct (IH y Hy Hrest') as (Hin & Hm & Hall).
      repeat split; [now right | exact Hm |].
      inversion Hall as [| ? ? Hym Hall']; subst.
      constructor; [| constructor; assumption].
      eapply leb_trans; [| exact Hym]. exact Hxy.
Qed.

(** ** Claims on [extract_stats] *)

(** C4, as stated, fails: three readings of 0.1 have the sum
    0.30000000000000004, whose third is 0.10000000000000002, above the
    maximum 0.1. *)
Lemma extract_stats_avg_above_max :
  ~ stats_ordered [tenth; tenth; tenth] "charge_voltage".
Proof.
  intros (a & m & M & E & _ & HaM).
  rewrite extract_stats_eq in E.
  injection E as Ea _ EM. subst a M.
  vm_compute in HaM. discriminate HaM.
Qed.

(** The same by overflow: the sum of two finite readings is infinite. *)
Lemma extract_stats_avg_overflow :
  let big := 0x1.1ccf385ebc8ap+1023%float in
  extract_stats [big; big] "v" =
  [ ("v_avg", PrimFloat.infinity); ("v_min", big); ("v_max", big) ].
Proof. vm_compute. reflexivity. Qed.

(** C4, amended: for every non-empty sequence of binary64 numbers (none of
    them NaN) and every prefix, [extract_stats] returns exactly the three
    keys [prefix_avg], [prefix_min], [prefix_max]; the minimum and the maximum
    are items of the sequence that bound every item, so min <= max; the
    average is the rounded sum divided by the length. *)
Theorem extract_stats_nonempty (data : list float) (prefix : string) :
  data <> [] -> Forall not_nan data ->
  exists a m M,
    extract_stats data prefix =
      [ (prefix ++ "_avg", a); (prefix ++ "_min", m); (prefix ++ "_max", M) ] /\
    a = PrimFloat.div (np.sum data) (np.float_of_nat (List.length data)) /\
    In m data /\ In M data /\
    (forall x, In x data ->
       PrimFloat.leb m x = true /\ PrimFloat.leb x M = true) /\
    PrimFloat.leb m M = true.
Proof.
  intros Hne Hnan.
  destruct data as [| x rest]; [congruence |].
  inversion Hnan as [| ? ? Hx Hrest]; subst.
  destruct (fold_minimum_spec rest x Hx Hrest) as (Hmin_in & _ & Hmin).
  destruct (fold_maximum_spec rest x Hx Hrest) as (Hmax_in & _ & Hmax).
  exists (stat_avg (x :: rest)), (stat_min (x :: rest)), (stat_max (x :: rest)).
  rewrite extract_stats_eq.
  unfold stat_avg, stat_min, stat_max, np.mean, np.min, np.max, try_except.
  rewrite Forall_forall in Hmin, Hmax.
  repeat split; auto.
Qed.

Lemma extract_stats_nonempty_witness :
  exists a m M,
    extract_stats [tenth; 1%float; 3%float] "charge_temp" =
      [ ("charge_temp_avg", a); ("charge_temp_min", m); ("charge_temp_max", M) ] /\
    a = PrimFloat.div (np.sum [tenth; 1%float; 3%float]) (np.float_of_nat 3) /\
    In m [tenth; 1%float; 3%float] /\ In M [tenth; 1%float; 3%float] /\
    (forall x, In x [tenth; 1%float; 3%float] ->
       PrimFloat.leb m x = true /\ PrimFloat.leb x M = true) /\
    PrimFloat.leb m M = true.
Proof.
  apply (extract_stats_nonempty [tenth; 1%float; 3%float] "charge_temp").
  - discriminate.
  - repeat constructor.
Defined.

(** C5: for the empty sequence and any prefix, [extract_stats] returns
    three entries, each of them NaN.  The average is the quotient 0/0; the
    minimum and the maximum raise inside [try] and are replaced. *)
Theorem extract_stats_empty (prefix : string) :
  extract_stats [] prefix =
  [ (prefix ++ "_avg", np.nan); (prefix ++ "_min", np.nan); (prefix ++ "_max", np.nan) ].
Proof.
  rewrite extract_stats_eq.
  replace (stat_avg []) with np.nan by (vm_compute; reflexivity).
  reflexivity.
Qed.

Lemma np_reductions_empty :
  np.mean [] = Ok np.nan /\ np.min [] = Raise ValueError /\ np.max [] = Raise ValueError.
Proof. vm_compute. auto. Qed.

(** ** One cycle entry *)

Ltac run_dict :=
  unfold dict_update; cbn [fold_left fst snd String.append];
  repeat (cbn [dict_set]; eval_key_tests).

Lemma charge_features_eq (v i t : list float) :
  dict_update
    (dict_update
       (dict_update [] (extract_stats v ("charge" ++ "_voltage")))
       (extract_stats i ("charge" ++ "_current")))
    (extract_stats t ("charge" ++ "_temp"))
  = charge_features v i t.
Proof. rewrite !extract_stats_eq. run_dict. reflexivity. Qed.

Lemma discharge_features_eq (v i t : list float) (duration capacity : float) :
  dict_set "capacity_Ah" capacity
    (dict_set "discharge_duration_s" duration
       (dict_update
          (dict_update
             (dict_update [] (extract_stats v ("discharge" ++ "_voltage")))
             (extract_stats i ("discharge" ++ "_current")))
          (extract_stats t ("discharge" ++ "_temp"))))
  = discharge_features v i t duration capacity.
Proof. rewrite !extract_stats_eq. run_dict. reflexivity. Qed.

Lemma is_cycle_type_inv (ctype : string) :
  is_cycle_type ctype = true -> ctype = "charge" \/ ctype = "discharge".
Proof.
  unfold is_cycle_type; simpl. rewrite orb_false_r.
  intros H. apply orb_true_iff in H.
  destruct H as [H | H]; apply String.eqb_eq in H; auto.
Qed.

Lemma cycle_step_outcome (st : list (dict float) * list (dict float))
  (cycle : cycle_struct) :
  cycle_step st cycle = (o <- cycle_outcome cycle ;; Ok (push st o)).
Proof.
  destruct st as [rc rd]. unfold cycle_step, cycle_outcome, channel.
  destruct (index0 (c_type cycle)) as [ctype | e]; [| reflexivity].
  cbn [Py.bind].
  destruct (is_cycle_type ctype) eqn:Hty; [| reflexivity].
  cbn [negb].
  destruct (index00 (c_data cycle)) as [data | e]; [| reflexivity].
  cbn [Py.bind].
  destruct (getfield data "Voltage_measured") as [a1 | e]; [| reflexivity].
  cbn [Py.bind].
  destruct (index0 a1) as [v | e]; [| reflexivity]. cbn [Py.bind].
  destruct (getfield data "Current_measured") as [a2 | e]; [| reflexivity].
  cbn [Py.bind].
  destruct (index0 a2) as [i | e]; [| reflexivity]. cbn [Py.bind].
  destruct (getfield data "Temperature_measured") as [a3 | e]; [| reflexivity].
  cbn [Py.bind].
  destruct (index0 a3) as [t | e]; [| reflexivity]. cbn [Py.bind].
  destruct (is_cycle_type_inv _ Hty) as [-> | ->].
  - change (String.eqb "charge" "discharge") with false. cbv iota.
    rewrite charge_features_eq. reflexivity.
  - change (String.eqb "discharge" "discharge") with true. cbv iota.
    destruct (last_or_nan data "Time") as [du | e]; [| reflexivity].
    cbn [Py.bind].
    destruct (last_or_nan data "Capacity") as [ca | e]; [| reflexivity].
    cbn [Py.bind]. rewrite discharge_features_eq. reflexivity.
Qed.

Lemma for_each_cycle_step (cycles : list cycle_struct)
  (st : list (dict float) * list (dict float)) :
  for_each cycle_step cycles st =
  (os <- outcomes cycles ;;
   Ok (fst st ++ charge_rows os, snd st ++ discharge_rows os)%list).
Proof.
  revert st; induction cycles as [| c rest IH]; intros [rc rd];
    cbn [for_each outcomes Py.bind].
  - cbn [charge_rows discharge_rows flat_map fst snd].
    rewrite !app_nil_r. reflexivity.
  - rewrite cycle_step_outcome.
    destruct (cycle_outcome c) as [o | e]; [| reflexivity].
    cbn [Py.bind]. rewrite IH.
    destruct (outcomes rest) as [os | e]; [| reflexivity].
    cbn [Py.bind].
    destruct o; cbn [push fst snd charge_rows discharge_rows flat_map];
      rewrite <- ?app_assoc; reflexivity.
Qed.

Lemma extract_rows_outcomes (cycles : list cycle_struct) :
  extract_rows cycles =
  (os <- outcomes cycles ;; Ok (charge_rows os, discharge_rows os)).
Proof. unfold extract_rows. rewrite for_each_cycle_step. reflexivity. Qed.

(** ** Well-formed entries *)

Lemma index_last_nonempty (x : float) (r : list float) :
  index_last (x :: r) = Ok (last (x :: r) np.nan).
Proof.
  revert x; induction r as [| y r IH]; intros x.
  - reflexivity.
  - change (index_last (x :: y :: r)) with (index_last (y :: r)).
    change (last (x :: y :: r) np.nan) with (last (y :: r) np.nan).
    apply IH.
Qed.

Lemma channel_row_vector (data : data_struct) (name : string) :
  row_vector data name = true -> exists x, channel data name = Ok x.
Proof.
  unfold row_vector, channel, getfield.
  destruct (dict_get name data) as [[| r rest] |]; try discriminate.
  intros _. exists r. reflexivity.
Qed.

Lemma last_or_nan_row_vector (data : data_struct) (name : string) :
  optional_row_vector data name = true ->
  last_or_nan data name = Ok (first_row_last data name).
Proof.
  unfold optional_row_vector, last_or_nan, first_row_last, dict_has, getfield.
  destruct (dict_get name data) as [[| r rest] |]; try discriminate; intros _.
  - cbn [Py.bind index0]. destruct r as [| x r]; [reflexivity |].
    cbn [List.length Nat.ltb Nat.leb]. apply index_last_nonempty.
  - reflexivity.
Qed.


Lemma well_formed_outcome (cycle : cycle_struct) :
  entry_well_formed cycle = true -> exists o, cycle_outcome cycle = Ok o.
Proof.
  unfold entry_well_formed, cycle_outcome.
  destruct (c_type cycle) as [| ctype tys]; [discriminate |].
  cbn [index0 Py.bind].
  destruct (is_cycle_type ctype) eqn:Hty; [| intros _; eexists; reflexivity].
  cbn [negb].
  destruct (c_data cycle) as [| [| data ?] ?]; try discriminate.
  cbn [index00 index0 Py.bind].
  cbn [forallb sensor_channels]. rewrite !andb_true_iff.
  intros [(Hv & Hi & Ht & _) Hopt].
  destruct (channel_row_vector _ _ Hv) as [v ->].
  destruct (channel_row_vector _ _ Hi) as [i ->].
  destruct (channel_row_vector _ _ Ht) as [t ->].
  cbn [Py.bind].
  destruct (String.eqb ctype "discharge"); [| eexists; reflexivity].
  apply andb_true_iff in Hopt. destruct Hopt as [Hti Hca].
  rewrite (last_or_nan_row_vector _ _ Hti), (last_or_nan_row_vector _ _ Hca).
  eexists; reflexivity.
Qed.

Lemma well_formed_outcomes (cycles : list cycle_struct) :
  forallb entry_well_formed cycles = true -> exists os, outcomes cycles = Ok os.
Proof.
  induction cycles as [| c rest IH]; cbn [forallb outcomes].
  - intros _. exists []. reflexivity.
  - intros H. apply andb_true_iff in H. destruct H as [Hc Hrest].
    destruct (well_formed_outcome c Hc) as [o ->].
    destruct (IH Hrest) as [os ->].
    exists (o :: os). reflexivity.
Qed.

Lemma outcomes_length (cycles : list cycle_struct) (os : list outcome) :
  outcomes cycles = Ok os -> List.length os = List.length cycles.
Proof.
  revert os; induction cycles as [| c rest IH]; intros os; cbn [outcomes].
  - intros H. injection H as <-. reflexivity.
  - destruct (cycle_outcome c) as [o | e]; [| discriminate].
    cbn [Py.bind].
    destruct (outcomes rest) as [os' | e]; [| discriminate].
    cbn [Py.bind]. intros H. injection H as <-.
    cbn [List.length]. f_equal. apply IH. reflexivity.
Qed.

Lemma outcomes_app (xs ys : list cycle_struct) :
  outcomes (xs ++ ys) =
  (os1 <- outcomes xs ;; os2 <- outcomes ys ;; Ok (os1 ++ os2)%list).
Proof.
  induction xs as [| c xs IH]; cbn [outcomes app Py.bind].
  - destruct (outcomes ys); reflexivity.
  - destruct (cycle_outcome c) as [o | e]; [| reflexivity].
    cbn [Py.bind]. rewrite IH.
    destruct (outcomes xs) as [os1 | e]; [| reflexivity].
    cbn [Py.bind].
    destruct (outcomes ys) as [os2 | e]; reflexivity.
Qed.





(** ** Claims on one entry *)




Example discharge_labels_example :
  exists f,
    cycle_step ([], []) full_discharge = Ok ([], [f]) /\
    dict_get "discharge_duration_s" f = Some 20%float /\
    dict_get "capacity_Ah" f = Some 1.5%float.
Proof. eexists. vm_compute. repeat split. Qed.

(** ** Entries of other types *)

Lemma junk_step (st : list (dict float) * list (dict float))
  (cycle : cycle_struct) :
  is_junk cycle = true -> cycle_step st cycle = Ok st.
Proof.
  unfold is_junk, cycle_step. destruct st as [rc rd].
  destruct (c_type cycle) as [| ctype tys]; [discriminate |].
  cbn [index0 Py.bind]. intros H. apply andb_true_iff in H.
  destruct H as [Hc Hd]. apply negb_true_iff in Hc, Hd.
  unfold is_cycle_type. cbn [existsb]. rewrite Hc, Hd. reflexivity.
Qed.

(** An entry whose type array is empty (a MATLAB empty string) has no label
    to test: reading it raises. *)
Lemma entry_without_label_raises (st : list (dict float) * list (dict float))
  (cycle : cycle_struct) :
  c_type cycle = [] -> cycle_step st cycle = Raise IndexError.
Proof.
  intros H. unfold cycle_step. destruct st as [rc rd]. rewrite H. reflexivity.
Qed.

Lemma for_each_filter_junk (cycles : list cycle_struct)
  (st : list (dict float) * list (dict float)) :
  for_each cycle_step (filter not_junk cycles) st = for_each cycle_step cycles st.
Proof.
  revert st; induction cycles as [| c rest IH]; intros st;
    cbn [filter for_each]; [reflexivity |].
  unfold not_junk at 1. destruct (is_junk c) eqn:Hj; cbn [negb].
  - rewrite (junk_step st c Hj). cbn [Py.bind]. apply IH.
  - cbn [for_each]. destruct (cycle_step st c) as [st' | e]; [| reflexivity].
    cbn [Py.bind]. apply IH.
Qed.

Lemma process_cycles_filter_junk (name : string) (cycles : list cycle_struct) :
  process_cycles name (filter not_junk cycles) = process_cycles name cycles.
Proof.
  unfold process_cycles, extract_rows. rewrite for_each_filter_junk. reflexivity.
Qed.

(** ** Pairing *)

Lemma cycle_outcome_kind (cycle : cycle_struct) (o : outcome) :
  cycle_outcome cycle = Ok o ->
  match o with
  | Skipped =>
      has_type "charge" cycle = false /\ has_type "discharge" cycle = false
  | ChargeRow f =>
      has_type "charge" cycle = true /\ has_type "discharge" cycle = false /\
      is_charge_row f
  | DischargeRow f =>
      has_type "charge" cycle = false /\ has_type "discharge" cycle = true /\
      is_discharge_row f
  end.
Proof.
  unfold cycle_outcome, has_type.
  destruct (c_type cycle) as [| ctype tys]; [discriminate |].
  cbn [index0 Py.bind].
  destruct (is_cycle_type ctype) eqn:Hct; cbn [negb].
  - destruct (index00 (c_data cycle)) as [data | e]; [| discriminate].
    cbn [Py.bind].
    destruct (channel data "Voltage_measured") as [v | e]; [| discriminate].
    destruct (channel data "Current_measured") as [i | e]; [| discriminate].
    destruct (channel data "Temperature_measured") as [t | e]; [| discriminate].
    cbn [Py.bind].
    destruct (is_cycle_type_inv _ Hct) as [-> | ->].
    + change (String.eqb "charge" "discharge") with false. cbv iota.
      intros H. injection H as <-.
      repeat split. exists v, i, t. reflexivity.
    + change (String.eqb "discharge" "discharge") with true. cbv iota.
      destruct (last_or_nan data "Time") as [du | e]; [| discriminate].
      destruct (last_or_nan data "Capacity") as [ca | e]; [| discriminate].
      cbn [Py.bind]. intros H. injection H as <-.
      repeat split. exists v, i, t, du, ca. reflexivity.
  - intros H. injection H as <-.
    unfold is_cycle_type in Hct. cbn [existsb] in Hct.
    rewrite orb_false_r in Hct. apply orb_false_iff in Hct.
    exact Hct.
Qed.

Lemma outcomes_filter (cycles : list cycle_struct) (os : list outcome) :
  outcomes cycles = Ok os ->
  outcomes (filter (has_type "charge") cycles) = Ok (map ChargeRow (charge_rows os)) /\
  outcomes (filter (has_type "discharge") cycles)
    = Ok (map DischargeRow (discharge_rows os)) /\
  Forall is_charge_row (charge_rows os) /\
  Forall is_discharge_row (discharge_rows os).
Proof.
  revert os; induction cycles as [| c rest IH]; intros os; cbn [outcomes].
  - intros H. injection H as <-. cbn. repeat split; constructor.
  - destruct (cycle_outcome c) as [o | e] eqn:Ho; [| discriminate].
    cbn [Py.bind].
    destruct (outcomes rest) as [os' | e]; [| discriminate].
    cbn [Py.bind]. intros H. injection H as <-.
    destruct (IH os' eq_refl) as (Hc & Hd & Fc & Fd).
    pose proof (cycle_outcome_kind c o Ho) as Hk.
    cbn [filter].
    destruct o as [| f | f].
    + destruct Hk as [-> ->]. cbn. repeat split; assumption.
    + destruct Hk as (-> & -> & Hf).
      cbn [outcomes charge_rows discharge_rows flat_map app map].
      rewrite Ho. cbn [Py.bind].
      fold (charge_rows os'). fold (discharge_rows os').
      rewrite Hc. cbn [Py.bind].
      repeat split; try assumption. constructor; assumption.
    + destruct Hk as (-> & -> & Hf).
      cbn [outcomes charge_rows discharge_rows flat_map app map].
      rewrite Ho. cbn [Py.bind].
      fold (charge_rows os'). fold (discharge_rows os').
      rewrite Hd. cbn [Py.bind].
      repeat split; try assumption. constructor; assumption.
Qed.

(** A paired row, cell by cell. *)
Lemma merged_row_cells (name : string) (idx : nat)
  (rows_charge rows_discharge : list (dict float)) :
  is_charge_row (nth idx rows_charge []) ->
  is_discharge_row (nth idx rows_discharge []) ->
  exists cells,
    merged_row name idx rows_charge rows_discharge =
      ("battery", CStr name) :: ("cycle", CInt (Z.of_nat idx + 1)) :: cells /\
    dict_keys cells =
      (dict_keys (charge_features [] [] []) ++
       dict_keys (discharge_features [] [] [] np.nan np.nan))%list.
Proof.
  intros (v & i & t & Hc) (v' & i' & t' & du & ca & Hd).
  unfold merged_row. rewrite Hc, Hd.
  unfold charge_features, discharge_features, as_cells. cbn [map fst snd].
  run_dict. eexists. split; reflexivity.
Qed.

Lemma pair_rows_length (name : string) (rc rd : list (dict float)) :
  List.length (pair_rows name rc rd) = Nat.min (List.length rc) (List.length rd).
Proof.
  unfold pair_rows.
  destruct (Nat.min (List.length rc) (List.length rd) =? 0) eqn:E.
  - apply Nat.eqb_eq in E. rewrite E. reflexivity.
  - rewrite length_map, length_seq. reflexivity.
Qed.

Lemma pair_rows_nth (name : string) (rc rd : list (dict float)) (idx : nat) :
  idx < Nat.min (List.length rc) (List.length rd) ->
  nth idx (pair_rows name rc rd) [] = merged_row name idx rc rd.
Proof.
  intros Hlt. unfold pair_rows.
  destruct (Nat.min (List.length rc) (List.length rd) =? 0) eqn:E.
  - apply Nat.eqb_eq in E. lia.
  - rewrite (nth_indep _ [] (merged_row name 0 rc rd))
      by (rewrite length_map, length_seq; exact Hlt).
    rewrite (map_nth (fun k => merged_row name k rc rd)).
    rewrite seq_nth by exact Hlt. reflexivity.
Qed.

Lemma pair_rows_rows (name : string) (rc rd : list (dict float)) :
  pair_rows name rc rd =
  map (fun idx => merged_row name idx rc rd)
      (seq 0 (Nat.min (List.length rc) (List.length rd))).
Proof.
  unfold pair_rows.
  destruct (Nat.min (List.length rc) (List.length rd) =? 0) eqn:E;
    [| reflexivity].
  apply Nat.eqb_eq in E. rewrite E. reflexivity.
Qed.

Lemma Forall_nth_default {A} (P : A -> Prop) (l : list A) (d : A) (n : nat) :
  Forall P l -> n < List.length l -> P (nth n l d).
Proof.
  intros H Hn. rewrite Forall_forall in H. apply H. apply nth_In. exact Hn.
Qed.

(** Every paired row starts with the battery name and the 1-based rank. *)
Lemma pair_rows_cells (name : string) (rc rd : list (dict float)) :
  Forall is_charge_row rc -> Forall is_discharge_row rd ->
  forall idx, idx < Nat.min (List.length rc) (List.length rd) ->
    dict_get "battery" (nth idx (pair_rows name rc rd) []) = Some (CStr name) /\
    dict_get "cycle" (nth idx (pair_rows name rc rd) [])
      = Some (CInt (Z.of_nat idx + 1)).
Proof.
  intros Fc Fd idx Hlt. rewrite pair_rows_nth by exact Hlt.
  destruct (merged_row_cells name idx rc rd) as (cells & -> & _).
  - apply Forall_nth_default; [exact Fc | lia].
  - apply Forall_nth_default; [exact Fd | lia].
  - split; reflexivity.
Qed.

Lemma pair_rows_cycle_column (name : string) (rc rd : list (dict float)) :
  Forall is_charge_row rc -> Forall is_discharge_row rd ->
  map (dict_get "cycle") (pair_rows name rc rd) =
  map (fun k => Some (CInt (Z.of_nat k)))
      (seq 1 (Nat.min (List.length rc) (List.length rd))).
Proof.
  intros Fc Fd. rewrite pair_rows_rows, map_map, <- seq_shift, map_map.
  apply map_ext_in. intros idx Hin. apply in_seq in Hin.
  destruct (merged_row_cells name idx rc rd) as (cells & -> & _).
  - apply Forall_nth_default; [exact Fc | lia].
  - apply Forall_nth_default; [exact Fd | lia].
  - cbn [dict_get]. eval_key_tests. do 2 f_equal. lia.
Qed.

Example B1_two_pairs :
  exists df,
    process_mat "B1" (battery_file "B1" B1_cycles) = Ok df /\
    map (dict_get "cycle") df = [Some (CInt 1); Some (CInt 2)] /\
    map (dict_get "capacity_Ah") df
      = [Some (CFloat 1.5%float); Some (CFloat 1.25%float)].
Proof. eexists. vm_compute. repeat split. Qed.

(** ** Locating the main structure *)


Example two_variable_file_rows :
  exists df,
    process_mat "B0005" two_variable_file = Ok df /\
    map (dict_get "cycle") df = [Some (CInt 1)].
Proof. eexists. vm_compute. repeat split. Qed.

(** ** Files without a usable structure *)


Section BatchProperties.

Variable loadmat : string -> result mat_dict.
Variable basename : string -> string.
Variable path_join : string -> string -> string.




End BatchProperties.

Example only_internal_file_skipped :
  process_battery demo_loadmat posix_basename "/data/B0008.mat" = Ok [].
Proof. reflexivity. Qed.

(** ** The RUL column *)

Lemma fold_left_max_spec (rest : list Z) (v : Z) :
  In (fold_left Z.max rest v) (v :: rest) /\
  forall w, In w (v :: rest) -> (w <= fold_left Z.max rest v)%Z.
Proof.
  revert v; induction rest as [| y rest IH]; intros v; cbn [fold_left].
  - split; [left; reflexivity |]. intros w [<- | []]. lia.
  - destruct (IH (Z.max v y)) as [Hin Hub]. split.
    + destruct Hin as [Hin | Hin]; [| right; right; exact Hin].
      rewrite <- Hin. destruct (Z.max_spec v y) as [[_ ->] | [_ ->]];
        [right; left | left]; reflexivity.
    + pose proof (Hub (Z.max v y) (or_introl eq_refl)) as Hm.
      intros w [Hw | [Hw | Hw]]; [subst w; lia | subst w; lia |].
      apply Hub. right. exact Hw.
Qed.

Lemma series_max_spec (x : list Z) :
  x <> [] ->
  In (series_max x) x /\ forall w, In w x -> (w <= series_max x)%Z.
Proof.
  destruct x as [| v rest]; [congruence |]. intros _.
  apply fold_left_max_spec.
Qed.

Lemma lookup_index_app (i : nat) (p q : list (nat * Z)) :
  lookup_index i (p ++ q) =
  match lookup_index i p with
  | Some v => Some v
  | None => lookup_index i q
  end.
Proof.
  induction p as [| [j v] p IH]; cbn [app lookup_index]; [reflexivity |].
  destruct (i =? j); [reflexivity | exact IH].
Qed.

Lemma lookup_index_combine_in (h : nat -> Z) (idx : list nat) (i : nat) :
  In i idx -> lookup_index i (combine idx (map h idx)) = Some (h i).
Proof.
  induction idx as [| j idx IH]; cbn [In map combine lookup_index]; [intros [] |].
  intros H. destruct (Nat.eqb_spec i j) as [-> | Hne]; [reflexivity |].
  destruct H as [-> | H]; [congruence | apply IH, H].
Qed.

Lemma lookup_index_combine_out (h : nat -> Z) (idx : list nat) (i : nat) :
  ~ In i idx -> lookup_index i (combine idx (map h idx)) = None.
Proof.
  induction idx as [| j idx IH]; cbn [In map combine lookup_index];
    [reflexivity |].
  intros H. destruct (Nat.eqb_spec i j) as [-> | Hne].
  - exfalso. apply H. left. reflexivity.
  - apply IH. intros Hin. apply H. right. exact Hin.
Qed.

Lemma group_indices_spec (keys : list string) (g : string) (i : nat) :
  In i (group_indices keys g) <-> i < List.length keys /\ nth i keys "" = g.
Proof.
  unfold group_indices. rewrite filter_In, in_seq, String.eqb_eq.
  split; intros [H1 H2]; (split; [lia | exact H2]).
Qed.

Lemma transform_piece (keys : list string) (vals : list Z) (g : string) :
  combine (group_indices keys g)
          (rul_of_group (map (fun j => nth j vals 0%Z) (group_indices keys g)))
  = combine (group_indices keys g)
            (map (fun j => (group_max keys vals g - nth j vals 0)%Z)
                 (group_indices keys g)).
Proof. unfold rul_of_group. rewrite map_map. reflexivity. Qed.

Lemma lookup_in_groups (keys : list string) (vals : list Z) (i : nat)
  (groups : list string) :
  i < List.length keys -> In (nth i keys "") groups ->
  lookup_index i
    (flat_map
       (fun g =>
          combine (group_indices keys g)
                  (rul_of_group (map (fun j => nth j vals 0%Z)
                                     (group_indices keys g))))
       groups)
  = Some (group_max keys vals (nth i keys "") - nth i vals 0)%Z.
Proof.
  intros Hi. induction groups as [| g groups IH]; cbn [In flat_map]; [intros [] |].
  intros Hin. rewrite lookup_index_app, transform_piece.
  destruct (string_dec g (nth i keys "")) as [-> | Hne].
  - rewrite lookup_index_combine_in; [reflexivity |].
    apply group_indices_spec. split; [exact Hi | reflexivity].
  - rewrite lookup_index_combine_out.
    + apply IH. destruct Hin as [Hin | Hin]; [congruence | exact Hin].
    + intros Hc. apply group_indices_spec in Hc. destruct Hc as [_ Hc].
      congruence.
Qed.

Lemma nth_map_seq {A} (F : nat -> A) (n i : nat) (d : A) :
  i < n -> nth i (map F (seq 0 n)) d = F i.
Proof.
  intros Hi.
  rewrite (nth_indep _ d (F 0)) by (rewrite length_map, length_seq; exact Hi).
  rewrite (map_nth F), seq_nth by exact Hi. reflexivity.
Qed.

Lemma groupby_transform_nth (keys : list string) (vals : list Z) (i : nat) :
  i < List.length keys ->
  nth i (groupby_transform keys vals rul_of_group) 0%Z
  = (group_max keys vals (nth i keys "") - nth i vals 0)%Z.
Proof.
  intros Hi. unfold groupby_transform.
  rewrite nth_map_seq by exact Hi.
  rewrite lookup_in_groups; [reflexivity | exact Hi |].
  apply nodup_In, nth_In, Hi.
Qed.

Lemma groupby_transform_length (keys : list string) (vals : list Z)
  (f : list Z -> list Z) :
  List.length (groupby_transform keys vals f) = List.length keys.
Proof. unfold groupby_transform. rewrite length_map, length_seq. reflexivity. Qed.

Lemma column_str_total (df : DataFrame) :
  forallb keyed_row df = true ->
  exists keys,
    column_str "battery" df = Ok keys /\
    List.length keys = List.length df /\
    forall i r, nth_error df i = Some r ->
      dict_get "battery" r = Some (CStr (nth i keys "")).
Proof.
  induction df as [| r df IH]; cbn [forallb column_str].
  - intros _. exists []. repeat split. intros [| i] r H; discriminate H.
  - intros H. apply andb_true_iff in H. destruct H as [Hr Hdf].
    destruct (IH Hdf) as (keys & -> & Hlen & Hnth).
    unfold keyed_row in Hr.
    destruct (dict_get "battery" r) as [[b | |] |] eqn:Eb; try discriminate.
    exists (b :: keys). cbn [Py.bind List.length]. repeat split.
    + f_equal. exact Hlen.
    + intros [| i] r' H; cbn [nth_error nth] in *.
      * injection H as <-. exact Eb.
      * apply Hnth, H.
Qed.

Lemma column_int_total (df : DataFrame) :
  forallb keyed_row df = true ->
  exists vals,
    column_int "cycle" df = Ok vals /\
    List.length vals = List.length df /\
    forall i r, nth_error df i = Some r ->
      dict_get "cycle" r = Some (CInt (nth i vals 0%Z)).
Proof.
  induction df as [| r df IH]; cbn [forallb column_int].
  - intros _. exists []. repeat split. intros [| i] r H; discriminate H.
  - intros H. apply andb_true_iff in H. destruct H as [Hr Hdf].
    destruct (IH Hdf) as (vals & -> & Hlen & Hnth).
    unfold keyed_row in Hr.
    destruct (dict_get "battery" r) as [[b | |] |]; try discriminate.
    destruct (dict_get "cycle" r) as [[| c |] |] eqn:Ec; try discriminate.
    exists (c :: vals). cbn [Py.bind List.length]. repeat split.
    + f_equal. exact Hlen.
    + intros [| i] r' H; cbn [nth_error nth] in *.
      * injection H as <-. exact Ec.
      * apply Hnth, H.
Qed.

Lemma assign_column_nth (name : string) (vs : list Z) (df : DataFrame)
  (i : nat) (r : row) :
  List.length vs = List.length df -> nth_error df i = Some r ->
  nth_error (assign_column name vs df) i
  = Some (dict_set name (CInt (nth i vs 0%Z)) r).
Proof.
  revert vs i; induction df as [| r0 df IH]; intros vs i Hlen H.
  - destruct i; discriminate H.
  - destruct vs as [| v vs]; [discriminate Hlen |].
    cbn [assign_column]. destruct i as [| i]; cbn [nth_error nth] in *.
    + injection H as <-. reflexivity.
    + apply IH; [injection Hlen as Hlen; exact Hlen | exact H].
Qed.

Lemma assign_column_length (name : string) (vs : list Z) (df : DataFrame) :
  List.length (assign_column name vs df) = List.length df.
Proof.
  revert vs; induction df as [| r df IH]; intros [| v vs]; try reflexivity.
  cbn [assign_column List.length]. f_equal. apply IH.
Qed.

Lemma dict_get_set_same {V} (k : string) (v : V) (d : dict V) :
  dict_get k (dict_set k v d) = Some v.
Proof.
  induction d as [| [k' v'] d IH]; cbn [dict_set dict_get].
  - rewrite String.eqb_refl. reflexivity.
  - destruct (String.eqb k' k) eqn:E; cbn [dict_get]; rewrite E;
      [reflexivity | exact IH].
Qed.

(** The labeling step on a table whose rows hold a battery name and a cycle
    number: it returns, and row [i] gets [M - cycle] for the largest cycle
    value [M] of its battery group. *)
Lemma add_RUL_spec (final_df : DataFrame) :
  forallb keyed_row final_df = true ->
  exists labelled,
    add_RUL final_df = Ok labelled /\
    List.length labelled = List.length final_df /\
    forall i r, nth_error final_df i = Some r ->
      exists b c M,
        dict_get "battery" r = Some (CStr b) /\
        dict_get "cycle" r = Some (CInt c) /\
        nth_error labelled i = Some (dict_set "RUL" (CInt (M - c)) r) /\
        (exists rmax,
            In rmax final_df /\ dict_get "battery" rmax = Some (CStr b) /\
            dict_get "cycle" rmax = Some (CInt M)) /\
        (forall r2 c2,
            In r2 final_df -> dict_get "battery" r2 = Some (CStr b) ->
            dict_get "cycle" r2 = Some (CInt c2) -> (c2 <= M)%Z) /\
        (0 <= M - c)%Z /\
        (c = M -> (M - c)%Z = 0%Z).
Proof.
  intros Hk.
  destruct (column_str_total final_df Hk) as (keys & Hkeys & Lk & Kn).
  destruct (column_int_total final_df Hk) as (vals & Hvals & Lv & Vn).
  exists (assign_column "RUL" (groupby_transform keys vals rul_of_group) final_df).
  split; [unfold add_RUL; rewrite Hkeys, Hvals; reflexivity |].
  split; [apply assign_column_length |].
  intros i r Hr.
  assert (Hi : i < List.length keys).
  { rewrite Lk. apply nth_error_Some. congruence. }
  set (b := nth i keys "").
  set (M := group_max keys vals b).
  exists b, (nth i vals 0%Z), M.
  assert (Hgi : In i (group_indices keys b))
    by (apply group_indices_spec; split; [exact Hi | reflexivity]).
  assert (Hne : group_values keys vals b <> []).
  { unfold group_values. destruct (group_indices keys b); [destruct Hgi |].
    discriminate. }
  destruct (series_max_spec _ Hne) as [Hin Hub]. fold (group_max keys vals b) in Hin, Hub.
  fold M in Hin, Hub.
  assert (Hc : (nth i vals 0 <= M)%Z).
  { apply Hub. unfold group_values. apply in_map_iff. exists i. split; auto. }
  split; [apply Kn, Hr |]. split; [apply Vn, Hr |].
  split.
  { rewrite (assign_column_nth "RUL" _ final_df i r).
    - rewrite groupby_transform_nth by exact Hi. reflexivity.
    - rewrite groupby_transform_length. exact Lk.
    - exact Hr. }
  split.
  { unfold group_values in Hin. apply in_map_iff in Hin.
    destruct Hin as (j & Hj & Hjin).
    apply group_indices_spec in Hjin. destruct Hjin as [Hjlt Hjb].
    destruct (nth_error final_df j) as [rmax |] eqn:Erm.
    - exists rmax. split; [eapply nth_error_In; exact Erm |].
      split; [rewrite (Kn j rmax Erm), Hjb; reflexivity |].
      rewrite (Vn j rmax Erm), Hj. reflexivity.
    - apply nth_error_None in Erm. lia. }
  split.
  { intros r2 c2 Hin2 Hb2 Hc2.
    apply In_nth_error in Hin2. destruct Hin2 as [j Hj].
    assert (Hjlt : j < List.length keys).
    { rewrite Lk. apply nth_error_Some. congruence. }
    rewrite (Kn j r2 Hj) in Hb2. rewrite (Vn j r2 Hj) in Hc2.
    injection Hb2 as Hb2. injection Hc2 as Hc2.
    apply Hub. unfold group_values. apply in_map_iff. exists j.
    split; [exact Hc2 |]. apply group_indices_spec. split; assumption. }
  split; lia.
Qed.

Lemma dict_get_set_other {V} (k k' : string) (v : V) (d : dict V) :
  String.eqb k' k = false -> dict_get k (dict_set k' v d) = dict_get k d.
Proof.
  intros Hne. induction d as [| [k0 v0] d IH]; cbn [dict_set dict_get].
  - rewrite Hne. reflexivity.
  - destruct (String.eqb k0 k') eqn:E; cbn [dict_get].
    + destruct (String.eqb k0 k) eqn:E'; [| reflexivity].
      apply String.eqb_eq in E, E'. subst.
      rewrite String.eqb_refl in Hne. discriminate.
    + destruct (String.eqb k0 k); [reflexivity | exact IH].
Qed.

(** ** What a file contributes *)

Lemma process_cycles_rows (name : string) (cycles : list cycle_struct)
  (df : DataFrame) :
  process_cycles name cycles = Ok df ->
  exists rc rd,
    Forall is_charge_row rc /\ Forall is_discharge_row rd /\
    df = pair_rows name rc rd.
Proof.
  unfold process_cycles. rewrite extract_rows_outcomes.
  destruct (outcomes cycles) as [os | e] eqn:Hos; [| discriminate].
  cbn [Py.bind fst snd]. intros H. injection H as <-.
  destruct (outcomes_filter cycles os Hos) as (_ & _ & Fc & Fd).
  exists (charge_rows os), (discharge_rows os). auto.
Qed.

Lemma process_mat_rows (name : string) (mat : mat_dict) (df : DataFrame) :
  process_mat name mat = Ok df ->
  exists rc rd,
    Forall is_charge_row rc /\ Forall is_discharge_row rd /\
    df = pair_rows name rc rd.
Proof.
  unfold process_mat.
  destruct (locate_cycles mat) as [[cycles |] | e]; cbn [Py.bind];
    [apply process_cycles_rows | | discriminate].
  intros H. injection H as <-. exists [], []. repeat split; constructor.
Qed.

(** Row [idx] of a file's table: the battery name and the rank [idx + 1]. *)
Lemma paired_table_cells (name : string) (rc rd : list (dict float))
  (idx : nat) (r : row) :
  Forall is_charge_row rc -> Forall is_discharge_row rd ->
  nth_error (pair_rows name rc rd) idx = Some r ->
  dict_get "battery" r = Some (CStr name) /\
  dict_get "cycle" r = Some (CInt (Z.of_nat idx + 1)) /\
  r <> [].
Proof.
  intros Fc Fd Hr.
  assert (Hlt : idx < Nat.min (List.length rc) (List.length rd)).
  { rewrite <- pair_rows_length with (name := name).
    apply nth_error_Some. congruence. }
  pose proof (nth_error_nth (pair_rows name rc rd) idx ([] : row) Hr) as Hn.
  destruct (pair_rows_cells name rc rd Fc Fd idx Hlt) as [Hb Hc].
  rewrite Hn in Hb, Hc. repeat split; try assumption.
  intros ->. discriminate Hb.
Qed.

Lemma paired_table_keyed (name : string) (rc rd : list (dict float)) :
  Forall is_charge_row rc -> Forall is_discharge_row rd ->
  forallb keyed_row (pair_rows name rc rd) = true.
Proof.
  intros Fc Fd. apply forallb_forall. intros r Hin.
  apply In_nth_error in Hin. destruct Hin as [idx Hr].
  destruct (paired_table_cells name rc rd idx r Fc Fd Hr) as (Hb & Hc & _).
  unfold keyed_row. rewrite Hb, Hc. reflexivity.
Qed.

Lemma paired_table_not_empty (name : string) (rc rd : list (dict float)) :
  Forall is_charge_row rc -> Forall is_discharge_row rd ->
  pair_rows name rc rd <> [] -> df_empty (pair_rows name rc rd) = false.
Proof.
  intros Fc Fd Hne.
  destruct (pair_rows name rc rd) as [| r df] eqn:E; [congruence |].
  assert (Hr : nth_error (pair_rows name rc rd) 0 = Some r)
    by (rewrite E; reflexivity).
  destruct (paired_table_cells name rc rd 0 r Fc Fd Hr) as (_ & _ & Hnil).
  unfold df_empty. cbn [forallb]. destruct r; [congruence | reflexivity].
Qed.

Lemma paired_table_empty (name : string) (rc rd : list (dict float)) :
  Forall is_charge_row rc -> Forall is_discharge_row rd ->
  df_empty (pair_rows name rc rd) = true -> pair_rows name rc rd = [].
Proof.
  intros Fc Fd He.
  destruct (pair_rows name rc rd) as [| r df] eqn:E; [reflexivity |].
  rewrite <- E in He. rewrite paired_table_not_empty in He; try assumption.
  - discriminate.
  - rewrite E. discriminate.
Qed.

Lemma for_each_invariant {S X} (P : S -> Prop) (body : S -> X -> result S)
  (xs : list X) (st st' : S) :
  (forall s x s', P s -> body s x = Ok s' -> P s') ->
  P st -> for_each body xs st = Ok st' -> P st'.
Proof.
  intros Hbody. revert st; induction xs as [| x xs IH]; intros st Hst;
    cbn [for_each].
  - intros H. injection H as <-. exact Hst.
  - destruct (body st x) as [s1 | e] eqn:E; [| discriminate].
    cbn [Py.bind]. apply IH. eapply Hbody; eassumption.
Qed.

Lemma forallb_concat {A} (p : A -> bool) (ls : list (list A)) :
  Forall (fun l => forallb p l = true) ls -> forallb p (List.concat ls) = true.
Proof.
  induction 1 as [| l ls Hl _ IH]; cbn [List.concat forallb]; [reflexivity |].
  rewrite forallb_app, Hl, IH. reflexivity.
Qed.

Section MainProperties.

Variable loadmat : string -> result mat_dict.
Variable basename : string -> string.
Variable path_join : string -> string -> string.

Lemma process_battery_rows (mat_path : string) (df : DataFrame) :
  process_battery loadmat basename mat_path = Ok df ->
  exists rc rd,
    Forall is_charge_row rc /\ Forall is_discharge_row rd /\
    df = pair_rows (battery_name_of basename mat_path) rc rd.
Proof.
  unfold process_battery.
  destruct (loadmat mat_path) as [mat | e]; [| discriminate].
  cbn [Py.bind]. apply process_mat_rows.
Qed.

Lemma all_dfs_keyed (walk : list (string * list string))
  (all_dfs : list DataFrame) :
  for_each (dir_step loadmat basename path_join) walk [] = Ok all_dfs ->
  Forall (fun df => forallb keyed_row df = true) all_dfs.
Proof.
  apply for_each_invariant; [| constructor].
  intros dfs [root files] dfs' Hdfs. unfold dir_step. cbn [fst snd].
  apply for_each_invariant; [| exact Hdfs].
  intros s file s' Hs. unfold file_step.
  destruct (endswith file ".mat"); [| intros H; injection H as <-; exact Hs].
  destruct (process_battery loadmat basename (path_join root file))
    as [df | e] eqn:Hdf; [| discriminate].
  cbn [Py.bind].
  destruct (df_empty df); cbn [negb]; intros H; injection H as <-;
    [exact Hs |].
  apply Forall_app. split; [exact Hs |]. constructor; [| constructor].
  destruct (process_battery_rows _ _ Hdf) as (rc & rd & Fc & Fd & ->).
  apply paired_table_keyed; assumption.
Qed.

Lemma main_labelled (walk : list (string * list string)) (t : DataFrame) :
  main loadmat basename path_join walk = Ok (Some t) ->
  exists all_dfs,
    for_each (dir_step loadmat basename path_join) walk [] = Ok all_dfs /\
    forallb keyed_row (List.concat all_dfs) = true /\
    add_RUL (List.concat all_dfs) = Ok t.
Proof.
  unfold main.
  destruct (for_each (dir_step loadmat basename path_join) walk [])
    as [all_dfs | e] eqn:Hloop; [| discriminate].
  cbn [Py.bind]. intros H. exists all_dfs.
  split; [reflexivity |].
  split; [apply forallb_concat, (all_dfs_keyed walk), Hloop |].
  destruct all_dfs as [| df dfs]; [discriminate |].
  destruct (add_RUL (List.concat (df :: dfs))) as [t' | e]; [| discriminate].
  cbn [Py.bind] in H. injection H as <-. reflexivity.
Qed.

End MainProperties.

(** A labelled row keeps its battery name and cycle number. *)
Lemma labelled_row_cells (r : row) (v : Z) :
  dict_get "battery" (dict_set "RUL" (CInt v) r) = dict_get "battery" r /\
  dict_get "cycle" (dict_set "RUL" (CInt v) r) = dict_get "cycle" r /\
  dict_get "RUL" (dict_set "RUL" (CInt v) r) = Some (CInt v).
Proof.
  repeat split.
  - apply dict_get_set_other. reflexivity.
  - apply dict_get_set_other. reflexivity.
  - apply dict_get_set_same.
Qed.

Example demo_walk_table :
  exists t,
    main demo_loadmat posix_basename posix_join demo_walk = Ok (Some t) /\
    map (dict_get "battery") t = repeat (Some (CStr "B1")) 5 /\
    map (dict_get "cycle") t
      = [Some (CInt 1); Some (CInt 2); Some (CInt 1); Some (CInt 2); Some (CInt 3)] /\
    map (dict_get "RUL") t
      = [Some (CInt 2); Some (CInt 1); Some (CInt 2); Some (CInt 1); Some (CInt 0)].
Proof. eexists. vm_compute. repeat split. Qed.

(** ** Battery names *)

Lemma paired_table_row (name : string) (rc rd : list (dict float)) (r : row) :
  Forall is_charge_row rc -> Forall is_discharge_row rd ->
  In r (pair_rows name rc rd) ->
  exists idx,
    idx < List.length (pair_rows name rc rd) /\
    dict_get "battery" r = Some (CStr name) /\
    dict_get "cycle" r = Some (CInt (Z.of_nat idx + 1)).
Proof.
  intros Fc Fd Hin. apply In_nth_error in Hin. destruct Hin as [idx Hr].
  exists idx. split; [apply nth_error_Some; congruence |].
  destruct (paired_table_cells name rc rd idx r Fc Fd Hr) as (Hb & Hc & _).
  split; assumption.
Qed.



Example battery_name_examples :
  battery_name_of posix_basename "B0005.mat" = "B0005" /\
  battery_name_of posix_basename "/data/rerun/B1.v2.mat" = "B1" /\
  battery_name_of posix_basename "/data/B1.mat" = "B1" /\
  battery_name_of posix_basename "/data.d/B0006" = "B0006".
Proof. repeat split. Qed.



(** * Further properties *)

(** ** The columns of a table *)

Lemma merged_row_columns (name : string) (idx : nat)
  (rows_charge rows_discharge : list (dict float)) :
  is_charge_row (nth idx rows_charge []) ->
  is_discharge_row (nth idx rows_discharge []) ->
  dict_keys (merged_row name idx rows_charge rows_discharge) = paired_columns.
Proof.
  intros Hc Hd.
  destruct (merged_row_cells name idx rows_charge rows_discharge Hc Hd)
    as (cells & -> & Hkeys).
  unfold paired_columns.
  change (dict_keys (("battery", CStr name)
                       :: ("cycle", CInt (Z.of_nat idx + 1)) :: cells))
    with ("battery" :: "cycle" :: dict_keys cells).
  rewrite Hkeys. reflexivity.
Qed.

Lemma paired_table_columns (name : string) (rc rd : list (dict float)) (r : row) :
  Forall is_charge_row rc -> Forall is_discharge_row rd ->
  In r (pair_rows name rc rd) -> dict_keys r = paired_columns.
Proof.
  intros Fc Fd Hin. apply In_nth_error in Hin. destruct Hin as [idx Hr].
  assert (Hlt : idx < Nat.min (List.length rc) (List.length rd)).
  { rewrite <- pair_rows_length with (name := name).
    apply nth_error_Some. congruence. }
  pose proof (nth_error_nth (pair_rows name rc rd) idx ([] : row) Hr) as Hn.
  rewrite pair_rows_nth in Hn by exact Hlt. subst r.
  apply merged_row_columns.
  - apply Forall_nth_default; [exact Fc | lia].
  - apply Forall_nth_default; [exact Fd | lia].
Qed.

(** X1: every row of the table [process_battery] returns has the same 22
    columns in the same order: battery, cycle, the nine charge statistics,
    the nine discharge statistics, [discharge_duration_s], [capacity_Ah]. *)
Theorem process_battery_columns
  (loadmat : string -> result mat_dict) (basename : string -> string)
  (mat_path : string) (df : DataFrame) :
  process_battery loadmat basename mat_path = Ok df ->
  forall r, In r df -> dict_keys r = paired_columns.
Proof.
  intros Hdf r Hin.
  destruct (process_battery_rows loadmat basename mat_path df Hdf)
    as (rc & rd & Fc & Fd & ->).
  apply (paired_table_columns _ rc rd r Fc Fd Hin).
Qed.

Lemma process_battery_columns_witness :
  exists df,
    process_battery demo_loadmat posix_basename "/data/B1.mat" = Ok df /\
    forall r, In r df -> dict_keys r = paired_columns.
Proof.
  eexists. split; [vm_compute; reflexivity |].
  apply (process_battery_columns demo_loadmat posix_basename "/data/B1.mat").
  vm_compute. reflexivity.
Defined.

(** ** The cells of a paired row *)

Lemma merged_row_explicit (name : string) (idx : nat)
  (rc rd : list (dict float)) (v i t v' i' t' : list float) (du ca : float) :
  nth idx rc [] = charge_features v i t ->
  nth idx rd [] = discharge_features v' i' t' du ca ->
  merged_row name idx rc rd =
  (("battery", CStr name) :: ("cycle", CInt (Z.of_nat idx + 1))
     :: as_cells (charge_features v i t)
     ++ as_cells (discharge_features v' i' t' du ca))%list.
Proof.
  intros Hc Hd. unfold merged_row. rewrite Hc, Hd.
  unfold charge_features, discharge_features, as_cells. cbn [map fst snd].
  run_dict. reflexivity.
Qed.

Ltac find_key H k :=
  repeat match type of H with
    | context [String.eqb ?lit k] =>
        let E := fresh "E" in
        destruct (String.eqb lit k) eqn:E;
        [ apply String.eqb_eq in E; subst k; injection H as <-; reflexivity | ]
    end;
  discriminate H.

Lemma merged_row_keeps (name : string) (idx : nat)
  (rc rd : list (dict float)) :
  is_charge_row (nth idx rc []) -> is_discharge_row (nth idx rd []) ->
  forall k x,
    dict_get k (nth idx rc []) = Some x \/ dict_get k (nth idx rd []) = Some x ->
    dict_get k (merged_row name idx rc rd) = Some (CFloat x).
Proof.
  intros (v & i & t & Hc) (v' & i' & t' & du & ca & Hd) k x H.
  rewrite (merged_row_explicit name idx rc rd _ _ _ _ _ _ _ _ Hc Hd).
  rewrite Hc, Hd in H.
  unfold charge_features, discharge_features in H. cbn [dict_get] in H.
  unfold charge_features, discharge_features, as_cells.
  cbn [map fst snd app].
  destruct H as [H | H]; find_key H k.
Qed.

(** X2: the keys of a charge row and of a discharge row never collide with
    each other or with [battery] and [cycle]: row [idx] of a file's table
    holds every value of the idx-th charge row and of the idx-th discharge
    row under its own key. *)
Theorem paired_row_keeps_features (name : string) (cycles : list cycle_struct)
  (os : list outcome) (df : DataFrame) (idx : nat) (r : row) :
  outcomes cycles = Ok os ->
  process_cycles name cycles = Ok df ->
  nth_error df idx = Some r ->
  forall k x,
    dict_get k (nth idx (charge_rows os) []) = Some x \/
    dict_get k (nth idx (discharge_rows os) []) = Some x ->
    dict_get k r = Some (CFloat x).
Proof.
  intros Hos Hdf Hr k x H.
  destruct (outcomes_filter cycles os Hos) as (_ & _ & Fc & Fd).
  unfold process_cycles in Hdf. rewrite extract_rows_outcomes, Hos in Hdf.
  cbn [Py.bind fst snd] in Hdf. injection Hdf as <-.
  assert (Hlt : idx < Nat.min (List.length (charge_rows os))
                              (List.length (discharge_rows os))).
  { rewrite <- pair_rows_length with (name := name).
    apply nth_error_Some. congruence. }
  pose proof (nth_error_nth _ idx ([] : row) Hr) as Hn.
  rewrite pair_rows_nth in Hn by exact Hlt. subst r.
  apply merged_row_keeps; [ | | exact H].
  - apply Forall_nth_default; [exact Fc | lia].
  - apply Forall_nth_default; [exact Fd | lia].
Qed.

Lemma paired_row_keeps_features_witness :
  exists os df r,
    outcomes B1_cycles = Ok os /\
    process_cycles "B1" B1_cycles = Ok df /\
    nth_error df 1 = Some r /\
    forall k x,
      dict_get k (nth 1 (charge_rows os) []) = Some x \/
      dict_get k (nth 1 (discharge_rows os) []) = Some x ->
      dict_get k r = Some (CFloat x).
Proof.
  do 3 eexists.
  split; [vm_compute; reflexivity |].
  split; [vm_compute; reflexivity |].
  split; [vm_compute; reflexivity |].
  eapply (paired_row_keeps_features "B1" B1_cycles _ _ 1);
    vm_compute; reflexivity.
Defined.

(** ** Surplus entries *)

Lemma pair_rows_surplus_charge (name : string)
  (rc extra rd : list (dict float)) :
  List.length rd <= List.length rc ->
  pair_rows name (rc ++ extra) rd = pair_rows name rc rd.
Proof.
  intros Hle. rewrite !pair_rows_rows, length_app.
  replace (Nat.min (List.length rc + List.length extra) (List.length rd))
    with (Nat.min (List.length rc) (List.length rd)) by lia.
  apply map_ext_in. intros idx Hin. apply in_seq in Hin.
  unfold merged_row. rewrite app_nth1 by lia. reflexivity.
Qed.

Lemma pair_rows_surplus_discharge (name : string)
  (rc rd extra : list (dict float)) :
  List.length rc <= List.length rd ->
  pair_rows name rc (rd ++ extra) = pair_rows name rc rd.
Proof.
  intros Hle. rewrite !pair_rows_rows, length_app.
  replace (Nat.min (List.length rc) (List.length rd + List.length extra))
    with (Nat.min (List.length rc) (List.length rd)) by lia.
  apply map_ext_in. intros idx Hin. apply in_seq in Hin.
  unfold merged_row. rewrite app_nth1 by lia. reflexivity.
Qed.

Lemma charge_rows_app (os os' : list outcome) :
  charge_rows (os ++ os') = (charge_rows os ++ charge_rows os')%list.
Proof. unfold charge_rows. apply flat_map_app. Qed.

Lemma discharge_rows_app (os os' : list outcome) :
  discharge_rows (os ++ os') = (discharge_rows os ++ discharge_rows os')%list.
Proof. unfold discharge_rows. apply flat_map_app. Qed.

Lemma filter_none {A} (p : A -> bool) (l : list A) :
  forallb (fun x => negb (p x)) l = true -> filter p l = [].
Proof.
  induction l as [| x l IH]; cbn [forallb filter]; [reflexivity |].
  intros H. apply andb_true_iff in H. destruct H as [Hx Hl].
  apply negb_true_iff in Hx. rewrite Hx. apply IH, Hl.
Qed.

Lemma has_type_exclusive (cycle : cycle_struct) :
  has_type "charge" cycle = true -> has_type "discharge" cycle = false.
Proof.
  unfold has_type. destruct (c_type cycle) as [| ctype tys]; [discriminate |].
  intros H. apply String.eqb_eq in H. subst ctype. reflexivity.
Qed.

Lemma has_type_exclusive' (cycle : cycle_struct) :
  has_type "discharge" cycle = true -> has_type "charge" cycle = false.
Proof.
  unfold has_type. destruct (c_type cycle) as [| ctype tys]; [discriminate |].
  intros H. apply String.eqb_eq in H. subst ctype. reflexivity.
Qed.

Lemma only_charge_outcomes (extra : list cycle_struct) (os : list outcome) :
  forallb (has_type "charge") extra = true -> outcomes extra = Ok os ->
  discharge_rows os = [].
Proof.
  intros Hty Hos.
  destruct (outcomes_filter extra os Hos) as (_ & Hd & _ & _).
  rewrite filter_none in Hd.
  - cbn [outcomes] in Hd. injection Hd as Hd.
    destruct (discharge_rows os); [reflexivity | discriminate Hd].
  - rewrite forallb_forall in Hty. apply forallb_forall. intros c Hc.
    rewrite (has_type_exclusive c (Hty c Hc)). reflexivity.
Qed.

Lemma only_discharge_outcomes (extra : list cycle_struct) (os : list outcome) :
  forallb (has_type "discharge") extra = true -> outcomes extra = Ok os ->
  charge_rows os = [].
Proof.
  intros Hty Hos.
  destruct (outcomes_filter extra os Hos) as (Hc & _ & _ & _).
  rewrite filter_none in Hc.
  - cbn [outcomes] in Hc. injection Hc as Hc.
    destruct (charge_rows os); [reflexivity | discriminate Hc].
  - rewrite forallb_forall in Hty. apply forallb_forall. intros c Hin.
    rewrite (has_type_exclusive' c (Hty c Hin)). reflexivity.
Qed.

Lemma outcome_counts (cycles : list cycle_struct) (os : list outcome) :
  outcomes cycles = Ok os ->
  List.length (charge_rows os)
    = List.length (filter (has_type "charge") cycles) /\
  List.length (discharge_rows os)
    = List.length (filter (has_type "discharge") cycles).
Proof.
  intros Hos. destruct (outcomes_filter cycles os Hos) as (Hc & Hd & _ & _).
  apply outcomes_length in Hc, Hd. rewrite length_map in Hc, Hd.
  split; assumption.
Qed.

(** X3: unmatched trailing entries are dropped without notice: when a file
    has at least as many charge as discharge entries, well-formed charge
    entries appended to its cycle list change nothing in the result, and
    likewise for discharge entries appended to a file with at least as many
    discharge as charge entries. *)
Theorem surplus_entries_discarded (name : string)
  (cycles extra : list cycle_struct) (t : string) :
  forallb entry_well_formed extra = true ->
  forallb (has_type t) extra = true ->
  (t = "charge" /\
   List.length (filter (has_type "discharge") cycles)
     <= List.length (filter (has_type "charge") cycles)) \/
  (t = "discharge" /\
   List.length (filter (has_type "charge") cycles)
     <= List.length (filter (has_type "discharge") cycles)) ->
  process_cycles name (cycles ++ extra) = process_cycles name cycles.
Proof.
  intros Hwf Hty Hcase. unfold process_cycles.
  rewrite !extract_rows_outcomes, outcomes_app.
  destruct (outcomes cycles) as [os | e] eqn:Hos; [| reflexivity].
  destruct (well_formed_outcomes extra Hwf) as [os' Hos'].
  rewrite Hos'. cbn [Py.bind fst snd].
  rewrite charge_rows_app, discharge_rows_app.
  destruct (outcome_counts cycles os Hos) as [Lc Ld].
  destruct Hcase as [[-> Hle] | [-> Hle]].
  - rewrite (only_charge_outcomes extra os' Hty Hos'), app_nil_r.
    rewrite pair_rows_surplus_charge by lia. reflexivity.
  - rewrite (only_discharge_outcomes extra os' Hty Hos'), app_nil_r.
    rewrite pair_rows_surplus_discharge by lia. reflexivity.
Qed.

Lemma surplus_entries_discarded_witness :
  process_cycles "B1"
    ([full_charge; full_discharge; full_charge; second_discharge]
       ++ [discharge_without_capacity; full_discharge])
  = process_cycles "B1"
      [full_charge; full_discharge; full_charge; second_discharge].
Proof.
  apply (surplus_entries_discarded "B1"
           [full_charge; full_discharge; full_charge; second_discharge]
           [discharge_without_capacity; full_discharge] "discharge").
  - reflexivity.
  - reflexivity.
  - right. split; [reflexivity | vm_compute; lia].
Defined.

(** ** NaN samples *)

Lemma SFeqb_refl (x : spec_float) : x <> S754_nan -> SFeqb x x = true.
Proof.
  unfold SFeqb, SFcompare.
  destruct x as [s | s | | s m e]; try congruence; intros _;
    try (destruct s; reflexivity).
  destruct s; rewrite Z.compare_refl;
    change (Pos.compare_cont Eq m m) with (Pos.compare m m);
    rewrite Pos.compare_refl; reflexivity.
Qed.

Lemma is_nan_spec (x : float) :
  PrimFloat.is_nan x = true <-> Prim2SF x = S754_nan.
Proof.
  unfold PrimFloat.is_nan. rewrite FloatAxioms.eqb_spec. split.
  - intros H. destruct (Prim2SF x) eqn:E; try reflexivity;
      rewrite SFeqb_refl in H by discriminate; discriminate H.
  - intros ->. reflexivity.
Qed.

Lemma add_nan_l (x y : float) :
  PrimFloat.is_nan x = true -> PrimFloat.is_nan (PrimFloat.add x y) = true.
Proof.
  rewrite !is_nan_spec, FloatAxioms.add_spec. intros ->. reflexivity.
Qed.

Lemma add_nan_r (x y : float) :
  PrimFloat.is_nan y = true -> PrimFloat.is_nan (PrimFloat.add x y) = true.
Proof.
  rewrite !is_nan_spec, FloatAxioms.add_spec. intros ->.
  destruct (Prim2SF x); reflexivity.
Qed.

Lemma div_nan_l (x y : float) :
  PrimFloat.is_nan x = true -> PrimFloat.is_nan (PrimFloat.div x y) = true.
Proof.
  rewrite !is_nan_spec, FloatAxioms.div_spec. intros ->. reflexivity.
Qed.

Lemma leb_nan_l (x y : float) :
  PrimFloat.is_nan x = true -> PrimFloat.leb x y = false.
Proof.
  rewrite is_nan_spec, FloatAxioms.leb_spec. intros ->. reflexivity.
Qed.

Lemma leb_nan_r (x y : float) :
  PrimFloat.is_nan y = true -> PrimFloat.leb x y = false.
Proof.
  rewrite is_nan_spec, FloatAxioms.leb_spec. intros ->.
  unfold SFleb, SFcompare. destruct (Prim2SF x); reflexivity.
Qed.

Lemma ltb_nan_l (x y : float) :
  PrimFloat.is_nan x = true -> PrimFloat.ltb x y = false.
Proof.
  rewrite is_nan_spec, FloatAxioms.ltb_spec. intros ->. reflexivity.
Qed.

Lemma ltb_nan_r (x y : float) :
  PrimFloat.is_nan y = true -> PrimFloat.ltb x y = false.
Proof.
  rewrite is_nan_spec, FloatAxioms.ltb_spec. intros ->.
  unfold SFltb, SFcompare. destruct (Prim2SF x); reflexivity.
Qed.

Lemma has_nan_app (a b : list float) :
  has_nan (a ++ b) <-> has_nan a \/ has_nan b.
Proof.
  unfold has_nan. split.
  - intros (x & Hin & Hx). apply in_app_or in Hin.
    destruct Hin; [left | right]; exists x; auto.
  - intros [(x & Hin & Hx) | (x & Hin & Hx)]; exists x; split; auto;
      apply in_or_app; auto.
Qed.

Lemma has_nan_split (n : nat) (a : list float) :
  has_nan a -> has_nan (firstn n a) \/ has_nan (skipn n a).
Proof. intros H. apply has_nan_app. rewrite firstn_skipn. exact H. Qed.

Lemma has_nan_cons (x : float) (a : list float) :
  has_nan (x :: a) <-> PrimFloat.is_nan x = true \/ has_nan a.
Proof.
  unfold has_nan. split.
  - intros (y & [<- | Hin] & Hy); [left; exact Hy | right; exists y; auto].
  - intros [Hx | (y & Hin & Hy)];
      [exists x; split; [left; reflexivity | exact Hx]
      | exists y; split; [right; exact Hin | exact Hy]].
Qed.

Lemma sum_loop_nan (a : list float) (res : float) :
  PrimFloat.is_nan res = true \/ has_nan a ->
  PrimFloat.is_nan (np.sum_loop res a) = true.
Proof.
  unfold np.sum_loop. revert res; induction a as [| x a IH]; intros res H;
    cbn [fold_left].
  - destruct H as [H | (y & [] & _)]. exact H.
  - apply IH. destruct H as [H | H].
    + left. apply add_nan_l, H.
    + apply has_nan_cons in H. destruct H as [H | H];
        [left; apply add_nan_r, H | right; exact H].
Qed.

Lemma add_lanes_length (r a : list float) :
  List.length (np.add_lanes r a) = List.length r.
Proof.
  revert a; induction r as [| x r IH]; intros [| y a]; cbn; auto.
Qed.

Lemma add_lanes_nan (r a : list float) :
  List.length a <= List.length r ->
  has_nan r \/ has_nan a -> has_nan (np.add_lanes r a).
Proof.
  revert a; induction r as [| x r IH]; intros [| y a] Hlen H;
    cbn [np.add_lanes List.length] in *.
  - destruct H as [(z & [] & _) | (z & [] & _)].
  - lia.
  - destruct H as [H | (z & [] & _)]. exact H.
  - apply has_nan_cons.
    destruct H as [H | H]; apply has_nan_cons in H; destruct H as [H | H].
    + left. apply add_nan_l, H.
    + right. apply IH; [lia | left; exact H].
    + left. apply add_nan_r, H.
    + right. apply IH; [lia | right; exact H].
Qed.

Lemma add_blocks_nan (k : nat) (r b : list float) :
  List.length r = 8 -> has_nan r \/ has_nan b ->
  List.length (fst (np.add_blocks k r b)) = 8 /\
  (has_nan (fst (np.add_blocks k r b)) \/ has_nan (snd (np.add_blocks k r b))).
Proof.
  revert r b; induction k as [| k IH]; intros r b Hr H; cbn [np.add_blocks].
  - cbn [fst snd]. auto.
  - apply IH; [rewrite add_lanes_length; exact Hr |].
    destruct H as [H | H].
    + left. apply add_lanes_nan; [rewrite length_firstn; lia | left; exact H].
    + destruct (has_nan_split 8 b H) as [H1 | H2].
      * left. apply add_lanes_nan; [rewrite length_firstn; lia | right; exact H1].
      * right. exact H2.
Qed.

Lemma unrolled_sum_nan (a : list float) :
  8 <= List.length a -> has_nan a ->
  PrimFloat.is_nan (np.unrolled_sum a) = true.
Proof.
  intros Hlen H. unfold np.unrolled_sum.
  destruct (add_blocks_nan (List.length a / 8 - 1) (firstn 8 a) (skipn 8 a))
    as [Hr Hnan].
  { rewrite length_firstn. lia. }
  { apply has_nan_split, H. }
  destruct (np.add_blocks (List.length a / 8 - 1) (firstn 8 a) (skipn 8 a))
    as [r rest].
  cbn [fst snd] in Hr, Hnan. apply sum_loop_nan.
  destruct Hnan as [(x & Hin & Hx) | Hrest]; [left | right; exact Hrest].
  destruct r as [| r0 [| r1 [| r2 [| r3 [| r4 [| r5 [| r6 [| r7 [| ? ?]]]]]]]]];
    try discriminate Hr.
  unfold np.lane. cbn [nth].
  cbn [In] in Hin.
  destruct Hin as [<- | [<- | [<- | [<- | [<- | [<- | [<- | [<- | []]]]]]]]];
    repeat first [ apply add_nan_l; assumption
                 | apply add_nan_r; assumption
                 | apply add_nan_l; apply add_nan_l; assumption
                 | apply add_nan_l; apply add_nan_r; assumption
                 | apply add_nan_r; apply add_nan_l; assumption
                 | apply add_nan_r; apply add_nan_r; assumption
                 | apply add_nan_l; apply add_nan_l; apply add_nan_l; assumption
                 | apply add_nan_l; apply add_nan_l; apply add_nan_r; assumption
                 | apply add_nan_l; apply add_nan_r; apply add_nan_l; assumption
                 | apply add_nan_l; apply add_nan_r; apply add_nan_r; assumption
                 | apply add_nan_r; apply add_nan_l; apply add_nan_l; assumption
                 | apply add_nan_r; apply add_nan_l; apply add_nan_r; assumption
                 | apply add_nan_r; apply add_nan_r; apply add_nan_l; assumption
                 | apply add_nan_r; apply add_nan_r; apply add_nan_r; assumption ].
Qed.

Lemma pairwise_sum_nan (fuel : nat) (a : list float) :
  has_nan a -> PrimFloat.is_nan (np.pairwise_sum fuel a) = true.
Proof.
  revert a; induction fuel as [| fuel IH]; intros a H; cbn [np.pairwise_sum];
    destruct (List.length a <? 8) eqn:E8;
    try (apply sum_loop_nan; right; exact H);
    apply Nat.ltb_ge in E8;
    destruct (List.length a <=? 128);
    try (apply unrolled_sum_nan; assumption).
  destruct (has_nan_split
              (List.length a / 2 - (List.length a / 2) mod 8) a H) as [H1 | H2].
  - apply add_nan_l, IH, H1.
  - apply add_nan_r, IH, H2.
Qed.

Lemma fold_minimum_nan (rest : list float) (x : float) :
  PrimFloat.is_nan x = true \/ has_nan rest ->
  PrimFloat.is_nan (fold_left np.minimum rest x) = true.
Proof.
  revert x; induction rest as [| y rest IH]; intros x H; cbn [fold_left].
  - destruct H as [H | (z & [] & _)]. exact H.
  - apply IH. unfold np.minimum.
    destruct (PrimFloat.is_nan x) eqn:Hx.
    + rewrite orb_true_r. left. exact Hx.
    + rewrite orb_false_r. destruct H as [H | H]; [discriminate H |].
      apply has_nan_cons in H. destruct H as [Hy | Hr].
      * rewrite (ltb_nan_r x y Hy). left. exact Hy.
      * right. exact Hr.
Qed.

Lemma fold_maximum_nan (rest : list float) (x : float) :
  PrimFloat.is_nan x = true \/ has_nan rest ->
  PrimFloat.is_nan (fold_left np.maximum rest x) = true.
Proof.
  revert x; induction rest as [| y rest IH]; intros x H; cbn [fold_left].
  - destruct H as [H | (z & [] & _)]. exact H.
  - apply IH. unfold np.maximum.
    destruct (PrimFloat.is_nan x) eqn:Hx.
    + rewrite orb_true_r. left. exact Hx.
    + rewrite orb_false_r. destruct H as [H | H]; [discriminate H |].
      apply has_nan_cons in H. destruct H as [Hy | Hr].
      * rewrite (ltb_nan_l y x Hy). left. exact Hy.
      * right. exact Hr.
Qed.

(** X4: a single NaN sample makes all three statistics NaN: the sum carries
    it whatever the order of the additions, and the minimum and the maximum
    do not skip it. *)
Theorem nan_sample_poisons_stats (data : list float) (prefix : string) :
  has_nan data ->
  exists a m M,
    extract_stats data prefix =
      [ (prefix ++ "_avg", a); (prefix ++ "_min", m); (prefix ++ "_max", M) ] /\
    PrimFloat.is_nan a = true /\
    PrimFloat.is_nan m = true /\
    PrimFloat.is_nan M = true.
Proof.
  intros H. rewrite extract_stats_eq.
  exists (stat_avg data), (stat_min data), (stat_max data).
  split; [reflexivity |].
  unfold stat_avg, stat_min, stat_max, np.mean, np.min, np.max, np.sum,
    try_except.
  split; [apply div_nan_l, add_nan_r, pairwise_sum_nan, H |].
  destruct data as [| x rest]; [destruct H as (z & [] & _) |].
  apply has_nan_cons in H.
  split; [apply fold_minimum_nan, H | apply fold_maximum_nan, H].
Qed.

Lemma nan_sample_poisons_stats_witness :
  exists a m M,
    extract_stats [3%float; PrimFloat.nan; 4%float] "discharge_temp" =
      [ ("discharge_temp_avg", a); ("discharge_temp_min", m);
        ("discharge_temp_max", M) ] /\
    PrimFloat.is_nan a = true /\
    PrimFloat.is_nan m = true /\
    PrimFloat.is_nan M = true.
Proof.
  apply (nan_sample_poisons_stats [3%float; PrimFloat.nan; 4%float]
           "discharge_temp").
  exists PrimFloat.nan. split; [right; left; reflexivity | reflexivity].
Defined.

(** ** A label field stored as an empty matrix *)




(** ** The batch as one loop over the paths *)

Lemma for_each_ext {S X} (body1 body2 : S -> X -> result S) (xs : list X)
  (st : S) :
  (forall s x, In x xs -> body1 s x = body2 s x) ->
  for_each body1 xs st = for_each body2 xs st.
Proof.
  revert st; induction xs as [| x xs IH]; intros st H; cbn [for_each];
    [reflexivity |].
  rewrite (H st x (or_introl eq_refl)).
  destruct (body2 st x) as [s' | e]; [| reflexivity].
  cbn [Py.bind]. apply IH. intros s y Hy. apply H. right. exact Hy.
Qed.

Lemma for_each_map {S X Y} (body : S -> Y -> result S) (g : X -> Y)
  (xs : list X) (st : S) :
  for_each body (map g xs) st = for_each (fun s x => body s (g x)) xs st.
Proof.
  revert st; induction xs as [| x xs IH]; intros st; cbn [map for_each];
    [reflexivity |].
  destruct (body st (g x)) as [s' | e]; [| reflexivity].
  cbn [Py.bind]. apply IH.
Qed.

Section PathLoop.

Variable loadmat : string -> result mat_dict.
Variable basename : string -> string.
Variable path_join : string -> string -> string.

Lemma file_loop_paths (root : string) (files : list string)
  (all_dfs : list DataFrame) :
  for_each (file_step loadmat basename path_join root) files all_dfs =
  for_each (path_step loadmat basename)
           (map (path_join root) (filter is_mat_file files)) all_dfs.
Proof.
  revert all_dfs; induction files as [| f files IH]; intros all_dfs;
    cbn [filter map for_each]; [reflexivity |].
  unfold file_step at 1. fold (is_mat_file f).
  destruct (is_mat_file f); cbn [map for_each Py.bind].
  - unfold path_step at 1.
    destruct (process_battery loadmat basename (path_join root f))
      as [df | e]; [| reflexivity].
    cbn [Py.bind]. destruct (negb (df_empty df)); cbn [Py.bind]; apply IH.
  - apply IH.
Qed.

Lemma walk_loop_paths (walk : list (string * list string))
  (all_dfs : list DataFrame) :
  for_each (dir_step loadmat basename path_join) walk all_dfs =
  for_each (path_step loadmat basename) (mat_paths path_join walk) all_dfs.
Proof.
  revert all_dfs; induction walk as [| [root files] walk IH]; intros all_dfs;
    cbn [mat_paths flat_map for_each]; [reflexivity |].
  fold (mat_paths path_join walk). rewrite for_each_app.
  unfold dir_step at 1. cbn [fst snd]. rewrite file_loop_paths.
  destruct (for_each (path_step loadmat basename)
              (map (path_join root) (filter is_mat_file files)) all_dfs)
    as [dfs | e]; [| reflexivity].
  cbn [Py.bind]. apply IH.
Qed.

(** A file's table is empty for [df.empty] exactly when it has no rows. *)
Lemma table_empty_iff (mat_path : string) (df : DataFrame) :
  process_battery loadmat basename mat_path = Ok df ->
  df_empty df = true <-> df = [].
Proof.
  intros Hdf.
  destruct (process_battery_rows loadmat basename mat_path df Hdf)
    as (rc & rd & Fc & Fd & ->).
  split; [apply paired_table_empty; assumption | intros ->; reflexivity].
Qed.

Lemma path_loop_all_ok (paths : list string) (all_dfs : list DataFrame) :
  (forall p, In p paths ->
     exists df, process_battery loadmat basename p = Ok df) ->
  exists dfs,
    for_each (path_step loadmat basename) paths all_dfs
      = Ok (all_dfs ++ dfs)%list /\
    List.concat dfs = flat_map (table_of loadmat basename) paths /\
    Forall (fun df => df <> []) dfs.
Proof.
  revert all_dfs; induction paths as [| p paths IH]; intros all_dfs Hok;
    cbn [for_each flat_map].
  - exists []. rewrite app_nil_r. repeat split. constructor.
  - destruct (Hok p (or_introl eq_refl)) as [df Hdf].
    unfold path_step at 1. unfold table_of at 1. rewrite Hdf.
    cbn [Py.bind try_except].
    destruct (df_empty df) eqn:He; cbn [negb Py.bind].
    + apply (table_empty_iff p df Hdf) in He. subst df.
      destruct (IH all_dfs) as (dfs & Hloop & Hcat & Hne).
      { intros q Hq. apply Hok. right. exact Hq. }
      exists dfs. repeat split; assumption.
    + destruct (IH (all_dfs ++ [df])%list) as (dfs & Hloop & Hcat & Hne).
      { intros q Hq. apply Hok. right. exact Hq. }
      exists (df :: dfs). rewrite Hloop, <- app_assoc.
      cbn [app List.concat]. rewrite Hcat. repeat split.
      constructor; [| exact Hne].
      intros ->. discriminate He.
Qed.

Lemma batch_table_keyed (walk : list (string * list string)) :
  forallb keyed_row (batch_table loadmat basename path_join walk) = true.
Proof.
  unfold batch_table. apply forallb_forall. intros r Hin.
  apply in_flat_map in Hin. destruct Hin as (p & _ & Hr).
  unfold table_of in Hr.
  destruct (process_battery loadmat basename p) as [df | e] eqn:Hdf;
    cbn [try_except] in Hr; [| destruct Hr].
  destruct (process_battery_rows loadmat basename p df Hdf)
    as (rc & rd & Fc & Fd & ->).
  pose proof (paired_table_keyed (battery_name_of basename p) rc rd Fc Fd) as Hk.
  rewrite forallb_forall in Hk. apply Hk, Hr.
Qed.

(** [main] when every file is processed: the loop gathers the non-empty
    tables, whose concatenation is [batch_table]. *)
Lemma main_all_ok (walk : list (string * list string)) :
  (forall p, In p (mat_paths path_join walk) ->
     exists df, process_battery loadmat basename p = Ok df) ->
  main loadmat basename path_join walk =
  match batch_table loadmat basename path_join walk with
  | [] => Ok None
  | _ :: _ =>
      t <- add_RUL (batch_table loadmat basename path_join walk) ;; Ok (Some t)
  end.
Proof.
  intros Hok. unfold main. rewrite walk_loop_paths.
  destruct (path_loop_all_ok _ [] Hok) as (dfs & -> & Hcat & Hne).
  cbn [app Py.bind]. fold (batch_table loadmat basename path_join walk) in Hcat.
  destruct dfs as [| df dfs].
  - cbn [List.concat] in Hcat. rewrite <- Hcat. reflexivity.
  - rewrite Hcat.
    destruct (batch_table loadmat basename path_join walk) as [| r t] eqn:E;
      [| reflexivity].
    inversion Hne as [| ? ? Hdf _]; subst.
    cbn [List.concat] in Hcat. apply app_eq_nil in Hcat.
    destruct Hcat as [Hcat _]. congruence.
Qed.

End PathLoop.

(** ** Which files the batch reads, and what stops it *)

(** X6: [main] reads only the files whose name ends in [".mat"]: two hosts
    whose [loadmat] agree on those paths give the same result, whatever
    they would return for the other files of the walk. *)
Theorem only_mat_files_are_read
  (loadmat1 loadmat2 : string -> result mat_dict) (basename : string -> string)
  (path_join : string -> string -> string)
  (walk : list (string * list string)) :
  (forall p, In p (mat_paths path_join walk) -> loadmat1 p = loadmat2 p) ->
  main loadmat1 basename path_join walk = main loadmat2 basename path_join walk.
Proof.
  intros Hagree. unfold main. rewrite !walk_loop_paths.
  rewrite (for_each_ext (path_step loadmat1 basename)
             (path_step loadmat2 basename)); [reflexivity |].
  intros s p Hp. unfold path_step, process_battery.
  rewrite (Hagree p Hp). reflexivity.
Qed.

Lemma only_mat_files_are_read_witness :
  main demo_loadmat posix_basename posix_join demo_walk =
  main demo_loadmat_txt posix_basename posix_join demo_walk.
Proof.
  apply (only_mat_files_are_read demo_loadmat demo_loadmat_txt posix_basename
           posix_join demo_walk).
  intros p Hp. vm_compute in Hp.
  destruct Hp as [<- | [<- | [<- | []]]]; reflexivity.
Defined.

(** X7: nothing in [main] catches an exception: when [process_battery] raises
    on a file and the files before it were processed, [main] raises the same
    exception; no table is returned, whatever the earlier files gave. *)
Theorem failing_file_aborts_batch
  (loadmat : string -> result mat_dict) (basename : string -> string)
  (path_join : string -> string -> string)
  (walk : list (string * list string))
  (before after : list string) (p : string) (e : exn) :
  mat_paths path_join walk = (before ++ p :: after)%list ->
  (forall q, In q before ->
     exists df, process_battery loadmat basename q = Ok df) ->
  process_battery loadmat basename p = Raise e ->
  main loadmat basename path_join walk = Raise e.
Proof.
  intros Hpaths Hbefore Hp. unfold main.
  rewrite walk_loop_paths, Hpaths, for_each_app.
  destruct (path_loop_all_ok loadmat basename before [] Hbefore)
    as (dfs & -> & _).
  cbn [Py.bind for_each]. unfold path_step at 1. rewrite Hp. reflexivity.
Qed.

Lemma failing_file_aborts_batch_witness :
  main demo_loadmat posix_basename posix_join demo_walk_gone = Raise OSError.
Proof.
  apply (failing_file_aborts_batch demo_loadmat posix_basename posix_join
           demo_walk_gone ["/data/B1.mat"] ["/data/B0007.mat"; "/data/rerun/B1.v2.mat"]
           "/data/gone.mat" OSError).
  - reflexivity.
  - intros q [<- | []]. eexists. vm_compute. reflexivity.
  - reflexivity.
Defined.

(** ** The table of the batch *)

Lemma batch_table_nil
  (loadmat : string -> result mat_dict) (basename : string -> string)
  (path_join : string -> string -> string)
  (walk : list (string * list string)) :
  (forall p, In p (mat_paths path_join walk) ->
     exists df, process_battery loadmat basename p = Ok df) ->
  batch_table loadmat basename path_join walk = [] <->
  forall p, In p (mat_paths path_join walk) ->
    process_battery loadmat basename p = Ok [].
Proof.
  intros Hok. unfold batch_table.
  induction (mat_paths path_join walk) as [| q paths IH]; cbn [flat_map].
  - split; [intros _ p [] | reflexivity].
  - destruct (Hok q (or_introl eq_refl)) as [df Hdf].
    assert (Hok' : forall p, In p paths ->
              exists df, process_battery loadmat basename p = Ok df)
      by (intros p Hp; apply Hok; right; exact Hp).
    specialize (IH Hok').
    unfold table_of at 1. rewrite Hdf. cbn [try_except]. split.
    + intros H. apply app_eq_nil in H. destruct H as [-> Hrest].
      intros p [<- | Hp]; [exact Hdf | apply IH; assumption].
    + intros H. pose proof (H q (or_introl eq_refl)) as Hq.
      rewrite Hdf in Hq. injection Hq as ->. cbn [app].
      apply IH. intros p Hp. apply H. right. exact Hp.
Qed.

(** X8: when every file is processed, [main] returns without a table (and
    writes no output file) exactly when every file's table is empty. *)
Theorem empty_batch_returns_none
  (loadmat : string -> result mat_dict) (basename : string -> string)
  (path_join : string -> string -> string)
  (walk : list (string * list string)) :
  (forall p, In p (mat_paths path_join walk) ->
     exists df, process_battery loadmat basename p = Ok df) ->
  main loadmat basename path_join walk = Ok None <->
  forall p, In p (mat_paths path_join walk) ->
    process_battery loadmat basename p = Ok [].
Proof.
  intros Hok.
  rewrite <- (batch_table_nil loadmat basename path_join walk Hok).
  rewrite (main_all_ok loadmat basename path_join walk Hok).
  destruct (batch_table loadmat basename path_join walk) as [| r t] eqn:E.
  - split; reflexivity.
  - split; [| discriminate].
    destruct (add_RUL (r :: t)) as [t' | e]; discriminate.
Qed.

Lemma empty_batch_returns_none_witness :
  main demo_loadmat posix_basename posix_join
    [("/data", ["B0007.mat"; "README.txt"; "B0008.mat"])] = Ok None <->
  forall p,
    In p (mat_paths posix_join [("/data", ["B0007.mat"; "README.txt"; "B0008.mat"])]) ->
    process_battery demo_loadmat posix_basename p = Ok [].
Proof.
  apply (empty_batch_returns_none demo_loadmat posix_basename posix_join
           [("/data", ["B0007.mat"; "README.txt"; "B0008.mat"])]).
  intros p Hp. vm_compute in Hp.
  destruct Hp as [<- | [<- | []]]; eexists; vm_compute; reflexivity.
Defined.

(** X9: when every file is processed and some file has rows, the table of
    [main] is the concatenation of the files' tables in the order of the
    walk, each row extended by its RUL and otherwise unchanged. *)
Theorem main_table_is_labelled_concatenation
  (loadmat : string -> result mat_dict) (basename : string -> string)
  (path_join : string -> string -> string)
  (walk : list (string * list string)) :
  (forall p, In p (mat_paths path_join walk) ->
     exists df, process_battery loadmat basename p = Ok df) ->
  batch_table loadmat basename path_join walk <> [] ->
  exists t,
    main loadmat basename path_join walk = Ok (Some t) /\
    List.length t
      = List.length (batch_table loadmat basename path_join walk) /\
    forall i r0,
      nth_error (batch_table loadmat basename path_join walk) i = Some r0 ->
      exists v, nth_error t i = Some (dict_set "RUL" (CInt v) r0).
Proof.
  intros Hok Hne.
  destruct (add_RUL_spec _ (batch_table_keyed loadmat basename path_join walk))
    as (t & Ht & Hlen & Hrows).
  exists t. split; [| split; [exact Hlen |]].
  - rewrite (main_all_ok loadmat basename path_join walk Hok).
    destruct (batch_table loadmat basename path_join walk); [congruence |].
    rewrite Ht. reflexivity.
  - intros i r0 Hr0.
    destruct (Hrows i r0 Hr0) as (b & c & M & _ & _ & Hi & _).
    exists (M - c)%Z. exact Hi.
Qed.

Lemma main_table_is_labelled_concatenation_witness :
  exists t,
    main demo_loadmat posix_basename posix_join demo_walk = Ok (Some t) /\
    List.length t
      = List.length (batch_table demo_loadmat posix_basename posix_join demo_walk) /\
    forall i r0,
      nth_error (batch_table demo_loadmat posix_basename posix_join demo_walk) i
        = Some r0 ->
      exists v, nth_error t i = Some (dict_set "RUL" (CInt v) r0).
Proof.
  apply (main_table_is_labelled_concatenation demo_loadmat posix_basename
           posix_join demo_walk).
  - intros p Hp. vm_compute in Hp.
    destruct Hp as [<- | [<- | [<- | []]]]; eexists; vm_compute; reflexivity.
  - vm_compute. discriminate.
Defined.

(** ** The columns of the final table *)

Lemma dict_set_new_key {V} (k : string) (v : V) (d : dict V) :
  ~ In k (dict_keys d) -> dict_keys (dict_set k v d) = (dict_keys d ++ [k])%list.
Proof.
  induction d as [| [k' v'] d IH]; cbn [dict_keys map dict_set fst app In];
    [reflexivity |].
  intros Hnot. destruct (String.eqb k' k) eqn:E.
  - apply String.eqb_eq in E. exfalso. apply Hnot. left. exact E.
  - cbn [map fst]. f_equal. apply IH. intros Hin. apply Hnot. right. exact Hin.
Qed.

Lemma all_dfs_tables
  (loadmat : string -> result mat_dict) (basename : string -> string)
  (path_join : string -> string -> string)
  (walk : list (string * list string)) (all_dfs : list DataFrame) :
  for_each (dir_step loadmat basename path_join) walk [] = Ok all_dfs ->
  Forall (fun df => exists p, process_battery loadmat basename p = Ok df) all_dfs.
Proof.
  rewrite walk_loop_paths.
  apply for_each_invariant; [| constructor].
  intros dfs p dfs' Hdfs. unfold path_step.
  destruct (process_battery loadmat basename p) as [df | e] eqn:Hdf;
    [| discriminate].
  cbn [Py.bind].
  destruct (df_empty df); cbn [negb]; intros H; injection H as <-;
    [exact Hdfs |].
  apply Forall_app. split; [exact Hdfs |].
  constructor; [exists p; exact Hdf | constructor].
Qed.

(** X10: every row of the table [main] returns has the 22 columns of a file's
    table followed by [RUL], in that order. *)
Theorem main_table_columns
  (loadmat : string -> result mat_dict) (basename : string -> string)
  (path_join : string -> string -> string)
  (walk : list (string * list string)) (t : DataFrame) :
  main loadmat basename path_join walk = Ok (Some t) ->
  forall r, In r t -> dict_keys r = (paired_columns ++ ["RUL"])%list.
Proof.
  intros Hmain r Hin.
  destruct (main_labelled loadmat basename path_join walk t Hmain)
    as (all_dfs & Hloop & Hkeyed & Hlab).
  destruct (add_RUL_spec _ Hkeyed) as (t' & Ht' & Hlen & Hrows).
  rewrite Hlab in Ht'. injection Ht' as <-.
  apply In_nth_error in Hin. destruct Hin as [i Hi].
  destruct (nth_error (List.concat all_dfs) i) as [r0 |] eqn:E0.
  2:{ apply nth_error_None in E0.
      assert (i < List.length t) by (apply nth_error_Some; congruence). lia. }
  destruct (Hrows i r0 E0) as (b & c & M & _ & _ & Hi' & _).
  assert (Hr : r = dict_set "RUL" (CInt (M - c)) r0) by congruence.
  assert (Hcols : dict_keys r0 = paired_columns).
  { apply nth_error_In in E0. apply in_concat in E0.
    destruct E0 as (df & Hdf & Hr0).
    pose proof (all_dfs_tables loadmat basename path_join walk all_dfs Hloop)
      as Hall.
    rewrite Forall_forall in Hall. destruct (Hall df Hdf) as [p Hp].
    destruct (process_battery_rows loadmat basename p df Hp)
      as (rc & rd & Fc & Fd & ->).
    apply (paired_table_columns _ rc rd r0 Fc Fd Hr0). }
  rewrite Hr, dict_set_new_key; rewrite Hcols; [reflexivity |].
  unfold paired_columns. cbn [In].
  intros H. repeat (destruct H as [H | H]; [discriminate H |]). exact H.
Qed.

Lemma main_table_columns_witness :
  exists t,
    main demo_loadmat posix_basename posix_join demo_walk = Ok (Some t) /\
    forall r, In r t -> dict_keys r = (paired_columns ++ ["RUL"])%list.
Proof.
  eexists. split; [vm_compute; reflexivity |].
  apply (main_table_columns demo_loadmat posix_basename posix_join demo_walk).
  vm_compute. reflexivity.
Defined.

(** ** The rows of the batch, file by file *)

Lemma batch_table_row
  (loadmat : string -> result mat_dict) (basename : string -> string)
  (paths : list string) (r : row) :
  In r (flat_map (table_of loadmat basename) paths) ->
  exists q df idx,
    In q paths /\ process_battery loadmat basename q = Ok df /\
    idx < List.length df /\ In r df /\
    dict_get "battery" r = Some (CStr (battery_name_of basename q)) /\
    dict_get "cycle" r = Some (CInt (Z.of_nat idx + 1)).
Proof.
  intros Hin. apply in_flat_map in Hin. destruct Hin as (q & Hq & Hr).
  unfold table_of in Hr.
  destruct (process_battery loadmat basename q) as [df | e] eqn:Hdf;
    cbn [try_except] in Hr; [| destruct Hr].
  destruct (process_battery_rows loadmat basename q df Hdf)
    as (rc & rd & Fc & Fd & E).
  rewrite E in Hr.
  destruct (paired_table_row _ rc rd r Fc Fd Hr) as (idx & Hlt & Hb & Hc).
  rewrite <- E in Hlt, Hr.
  exists q, df, idx. repeat split; assumption.
Qed.

(** ** Battery names on a POSIX host *)

Lemma without_char_cons (c x : ascii) (s : string) :
  without_char c (String x s) = negb (Ascii.eqb x c) && without_char c s.
Proof. reflexivity. Qed.

Lemma without_char_app (c : ascii) (a b : string) :
  without_char c (a ++ b) = without_char c a && without_char c b.
Proof.
  induction a as [| x a IH]; [reflexivity |].
  change (String x a ++ b) with (String x (a ++ b)).
  rewrite !without_char_cons, IH, andb_assoc. reflexivity.
Qed.

Lemma after_last_slash_none (tail p : string) :
  without_char "/" p = true -> after_last_slash tail p = tail.
Proof.
  revert tail; induction p as [| c p IH]; intros tail; [reflexivity |].
  rewrite without_char_cons. intros H. apply andb_true_iff in H.
  destruct H as [Hc Hp]. apply negb_true_iff in Hc.
  cbn [after_last_slash]. rewrite Hc. apply IH, Hp.
Qed.

Lemma after_last_slash_app (tail a b : string) :
  after_last_slash tail (a ++ String "/" b) = after_last_slash b b.
Proof.
  revert tail; induction a as [| c a IH]; intros tail.
  - reflexivity.
  - change (String c a ++ String "/" b) with (String c (a ++ String "/" b)).
    cbn [after_last_slash]. apply IH.
Qed.

Lemma posix_basename_plain (file : string) :
  without_char "/" file = true -> posix_basename file = file.
Proof. apply after_last_slash_none. Qed.

Lemma posix_basename_after_slash (a file : string) :
  without_char "/" file = true -> posix_basename (a ++ String "/" file) = file.
Proof.
  intros H. unfold posix_basename. rewrite after_last_slash_app.
  apply after_last_slash_none, H.
Qed.

Lemma endswith_slash (a : string) :
  endswith a "/" = true -> exists a', a = a' ++ "/".
Proof.
  unfold endswith. cbn [String.length]. intros H.
  apply andb_true_iff in H. destruct H as [_ H]. apply String.eqb_eq in H.
  induction a as [| c a IH].
  - discriminate H.
  - cbn [String.length] in H. rewrite Nat.sub_succ, Nat.sub_0_r in H.
    destruct a as [| c' a].
    + cbn in H. injection H as ->. exists "". reflexivity.
    + cbn [String.length substring] in H.
      destruct IH as [a' Ha'].
      * cbn [String.length]. rewrite Nat.sub_succ, Nat.sub_0_r. exact H.
      * exists (String c a'). rewrite Ha'. reflexivity.
Qed.

Lemma startswith_slash (file : string) :
  without_char "/" file = true -> startswith file "/" = false.
Proof.
  unfold startswith. destruct file as [| c file]; [reflexivity |].
  rewrite without_char_cons. intros H. apply andb_true_iff in H.
  destruct H as [Hc _]. apply negb_true_iff in Hc.
  cbn [String.prefix]. destruct (ascii_dec "/" c) as [<- | _]; [| reflexivity].
  discriminate Hc.
Qed.

Lemma posix_basename_join (root file : string) :
  without_char "/" file = true ->
  posix_basename (posix_join root file) = file.
Proof.
  intros H. unfold posix_join. rewrite (startswith_slash file H).
  destruct (String.eqb root "") eqn:Er.
  - apply String.eqb_eq in Er. subst root. cbn [orb String.append].
    apply posix_basename_plain, H.
  - cbn [orb]. destruct (endswith root "/") eqn:Ee.
    + destruct (endswith_slash root Ee) as [a' ->].
      rewrite append_assoc. apply posix_basename_after_slash, H.
    + apply posix_basename_after_slash, H.
Qed.

Lemma split_first_stem (sep : ascii) (stem rest : string) :
  without_char sep stem = true ->
  split_first sep (stem ++ String sep rest) = stem.
Proof.
  induction stem as [| c stem IH].
  - intros _. cbn. rewrite Ascii.eqb_refl. reflexivity.
  - rewrite without_char_cons. intros H. apply andb_true_iff in H.
    destruct H as [Hc Hs]. apply negb_true_iff in Hc.
    change (String c stem ++ String sep rest)
      with (String c (stem ++ String sep rest)).
    cbn [split_first]. rewrite Hc, IH by exact Hs. reflexivity.
Qed.

Lemma split_first_without (sep : ascii) (s : string) :
  without_char sep (split_first sep s) = true.
Proof.
  induction s as [| c s IH]; [reflexivity |].
  cbn [split_first]. destruct (Ascii.eqb c sep) eqn:E; [reflexivity |].
  rewrite without_char_cons, E, IH. reflexivity.
Qed.

(** X12: on a POSIX host the battery name does not depend on the directory:
    for a file named [stem.ext] found in any directory, where [stem] holds
    neither ["/"] nor ["."] and [ext] holds no ["/"], the battery name is
    [stem]; and whatever the path, a battery name holds no ["."]. *)
Theorem battery_name_is_stem (root stem ext : string) :
  without_char "/" stem = true ->
  without_char "." stem = true ->
  without_char "/" ext = true ->
  battery_name_of posix_basename (posix_join root (stem ++ "." ++ ext)) = stem /\
  forall (basename : string -> string) (mat_path : string),
    without_char "." (battery_name_of basename mat_path) = true.
Proof.
  intros Hs Hd He. split.
  - unfold battery_name_of. rewrite posix_basename_join.
    + apply split_first_stem, Hd.
    + rewrite without_char_app, Hs.
      change ("." ++ ext) with (String "." ext).
      rewrite without_char_cons, He. reflexivity.
  - intros basename mat_path. apply split_first_without.
Qed.

Lemma battery_name_is_stem_witness :
  battery_name_of posix_basename
    (posix_join "/data/2008.batch/" ("B0018" ++ "." ++ "v2.mat")) = "B0018" /\
  forall (basename : string -> string) (mat_path : string),
    without_char "." (battery_name_of basename mat_path) = true.
Proof.
  apply (battery_name_is_stem "/data/2008.batch/" "B0018" "v2.mat");
    reflexivity.
Defined.

(** * The claims on entries, files and batches *)

(** ** Ties of the two reductions *)

Example signed_zero_ties :
  np.min [PrimFloat.zero; PrimFloat.neg_zero] = Ok PrimFloat.neg_zero /\
  np.max [PrimFloat.zero; PrimFloat.neg_zero] = Ok PrimFloat.neg_zero.
Proof. vm_compute. auto. Qed.

(** ** The discharge labels *)





Example discharge_without_capacity_labels :
  exists f,
    cycle_step ([], []) discharge_without_capacity = Ok ([], [f]) /\
    dict_get "discharge_duration_s" f = Some 18%float /\
    dict_get "capacity_Ah" f = Some np.nan.
Proof. eexists. vm_compute. repeat split. Qed.

(** ** The table of a well-formed cycle list *)

(** What a cycle list of well-formed entries gives: the rows of its charge
    entries and of its discharge entries, in file order, and their pairing. *)
Lemma well_formed_table (name : string) (cycles : list cycle_struct) :
  forallb entry_well_formed cycles = true ->
  exists rows_charge rows_discharge df,
    outcomes (filter (has_type "charge") cycles)
      = Ok (map ChargeRow rows_charge) /\
    outcomes (filter (has_type "discharge") cycles)
      = Ok (map DischargeRow rows_discharge) /\
    process_cycles name cycles = Ok df /\
    List.length df
      = Nat.min (List.length (filter (has_type "charge") cycles))
                (List.length (filter (has_type "discharge") cycles)) /\
    map (dict_get "cycle") df
      = map (fun k => Some (CInt (Z.of_nat k)))
            (seq 1 (Nat.min (List.length (filter (has_type "charge") cycles))
                            (List.length (filter (has_type "discharge") cycles)))) /\
    (forall idx r,
        nth_error df idx = Some r ->
        dict_get "battery" r = Some (CStr name) /\
        dict_get "cycle" r = Some (CInt (Z.of_nat idx + 1)) /\
        dict_keys r = paired_columns /\
        forall k x,
          dict_get k (nth idx rows_charge []) = Some x \/
          dict_get k (nth idx rows_discharge []) = Some x ->
          dict_get k r = Some (CFloat x)).
Proof.
  intros Hwf.
  destruct (well_formed_outcomes cycles Hwf) as [os Hos].
  destruct (outcomes_filter cycles os Hos) as (Hc & Hd & Fc & Fd).
  destruct (outcome_counts cycles os Hos) as [Lc Ld].
  exists (charge_rows os), (discharge_rows os),
    (pair_rows name (charge_rows os) (discharge_rows os)).
  split; [exact Hc |]. split; [exact Hd |].
  split.
  { unfold process_cycles. rewrite extract_rows_outcomes, Hos. reflexivity. }
  split; [rewrite pair_rows_length, Lc, Ld; reflexivity |].
  split; [rewrite pair_rows_cycle_column, Lc, Ld by assumption; reflexivity |].
  intros idx r Hr.
  destruct (paired_table_cells name _ _ idx r Fc Fd Hr) as (Hb & Hcy & _).
  split; [exact Hb |]. split; [exact Hcy |].
  assert (Hlt : idx < Nat.min (List.length (charge_rows os))
                              (List.length (discharge_rows os))).
  { rewrite <- pair_rows_length with (name := name).
    apply nth_error_Some. congruence. }
  split; [apply (paired_table_columns name _ _ r Fc Fd), (nth_error_In _ _ Hr) |].
  pose proof (nth_error_nth _ idx ([] : row) Hr) as Hn.
  rewrite pair_rows_nth in Hn by exact Hlt. subst r.
  apply merged_row_keeps.
  - apply Forall_nth_default; [exact Fc | lia].
  - apply Forall_nth_default; [exact Fd | lia].
Qed.

(** ** Pairing *)

(** C2, as stated, fails on a file one of whose entries cannot be processed:
    with two charge entries and one discharge entry, the second charge entry
    having no [Voltage_measured] field, the file has [min c d = 1] and yet
    gives no row: reading the missing field raises. *)
Lemma pairing_needs_readable_entries :
  List.length (filter (has_type "charge")
                 [full_charge; full_discharge; charge_without_voltage]) = 2 /\
  List.length (filter (has_type "discharge")
                 [full_charge; full_discharge; charge_without_voltage]) = 1 /\
  process_mat "B0005"
    (battery_file "B0005" [full_charge; full_discharge; charge_without_voltage])
  = Raise ValueError.
Proof. vm_compute. auto. Qed.

(** C2, amended: a file whose cycle list is reached and whose entries are all
    well formed, with [c] entries typed "charge" and [d] typed "discharge",
    yields exactly [min c d] rows; their [cycle] values are 1, 2, ...,
    [min c d]; row [idx] carries the battery name, the rank [idx + 1], the 22
    columns, and every value of the row of the idx-th charge entry and of the
    row of the idx-th discharge entry, in file order; and with [min c d = 0]
    the table is empty. *)
Theorem pairing_positional (name : string) (mat : mat_dict)
  (cycles : list cycle_struct) :
  locate_cycles mat = Ok (Some cycles) ->
  forallb entry_well_formed cycles = true ->
  let c := List.length (filter (has_type "charge") cycles) in
  let d := List.length (filter (has_type "discharge") cycles) in
  exists rows_charge rows_discharge df,
    outcomes (filter (has_type "charge") cycles)
      = Ok (map ChargeRow rows_charge) /\
    outcomes (filter (has_type "discharge") cycles)
      = Ok (map DischargeRow rows_discharge) /\
    process_mat name mat = Ok df /\
    List.length df = Nat.min c d /\
    map (dict_get "cycle") df
      = map (fun k => Some (CInt (Z.of_nat k))) (seq 1 (Nat.min c d)) /\
    (forall idx r,
        nth_error df idx = Some r ->
        dict_get "battery" r = Some (CStr name) /\
        dict_get "cycle" r = Some (CInt (Z.of_nat idx + 1)) /\
        dict_keys r = paired_columns /\
        forall k x,
          dict_get k (nth idx rows_charge []) = Some x \/
          dict_get k (nth idx rows_discharge []) = Some x ->
          dict_get k r = Some (CFloat x)) /\
    (Nat.min c d = 0 -> df = []).
Proof.
  intros Hloc Hwf c d.
  destruct (well_formed_table name cycles Hwf)
    as (rc & rd & df & Hc & Hd & Hdf & Hlen & Hcol & Hrows).
  exists rc, rd, df.
  split; [exact Hc |]. split; [exact Hd |].
  split; [unfold process_mat; rewrite Hloc; exact Hdf |].
  split; [exact Hlen |]. split; [exact Hcol |]. split; [exact Hrows |].
  intros H0. fold c d in Hlen. rewrite H0 in Hlen.
  destruct df; [reflexivity | discriminate Hlen].
Qed.

Lemma pairing_positional_witness :
  let c := List.length (filter (has_type "charge") B1_cycles) in
  let d := List.length (filter (has_type "discharge") B1_cycles) in
  exists rows_charge rows_discharge df,
    outcomes (filter (has_type "charge") B1_cycles)
      = Ok (map ChargeRow rows_charge) /\
    outcomes (filter (has_type "discharge") B1_cycles)
      = Ok (map DischargeRow rows_discharge) /\
    process_mat "B1" (battery_file "B1" B1_cycles) = Ok df /\
    List.length df = Nat.min c d /\
    map (dict_get "cycle") df
      = map (fun k => Some (CInt (Z.of_nat k))) (seq 1 (Nat.min c d)) /\
    (forall idx r,
        nth_error df idx = Some r ->
        dict_get "battery" r = Some (CStr "B1") /\
        dict_get "cycle" r = Some (CInt (Z.of_nat idx + 1)) /\
        dict_keys r = paired_columns /\
        forall k x,
          dict_get k (nth idx rows_charge []) = Some x \/
          dict_get k (nth idx rows_discharge []) = Some x ->
          dict_get k r = Some (CFloat x)) /\
    (Nat.min c d = 0 -> df = []).
Proof.
  apply (pairing_positional "B1" (battery_file "B1" B1_cycles) B1_cycles);
    reflexivity.
Defined.

(** ** Entries of other types *)

Lemma junk_well_formed (cycle : cycle_struct) :
  is_junk cycle = true -> entry_well_formed cycle = true.
Proof.
  unfold is_junk, entry_well_formed.
  destruct (c_type cycle) as [| ctype tys]; [discriminate |].
  intros H. apply andb_true_iff in H.
  destruct H as [Hc Hd]. apply negb_true_iff in Hc, Hd.
  unfold is_cycle_type. cbn [existsb]. rewrite Hc, Hd. reflexivity.
Qed.

Lemma junk_has_no_type (t : string) (cycle : cycle_struct) :
  t = "charge" \/ t = "discharge" ->
  is_junk cycle = true -> has_type t cycle = false.
Proof.
  unfold is_junk, has_type.
  destruct (c_type cycle) as [| ctype tys]; [reflexivity |].
  intros Ht H. apply andb_true_iff in H.
  destruct H as [Hc Hd]. apply negb_true_iff in Hc, Hd.
  destruct Ht as [-> | ->]; assumption.
Qed.

Lemma filter_type_not_junk (t : string) (cycles : list cycle_struct) :
  t = "charge" \/ t = "discharge" ->
  filter (has_type t) (filter not_junk cycles) = filter (has_type t) cycles.
Proof.
  intros Ht. induction cycles as [| c cycles IH]; [reflexivity |].
  cbn [filter]. unfold not_junk at 1.
  destruct (is_junk c) eqn:Hj; cbn [negb filter].
  - rewrite (junk_has_no_type t c Ht Hj). exact IH.
  - destruct (has_type t c); rewrite IH; reflexivity.
Qed.

Lemma well_formed_not_junk (cycles : list cycle_struct) :
  forallb entry_well_formed (filter not_junk cycles) = true ->
  forallb entry_well_formed cycles = true.
Proof.
  induction cycles as [| c cycles IH]; [reflexivity |].
  cbn [filter forallb]. unfold not_junk at 1.
  destruct (is_junk c) eqn:Hj; cbn [negb forallb].
  - intros H. rewrite (junk_well_formed c Hj), (IH H). reflexivity.
  - intros H. apply andb_true_iff in H. destruct H as [Hc Hrest].
    rewrite Hc, (IH Hrest). reflexivity.
Qed.

(** C7, as stated, fails on an entry whose type label is the empty string:
    the label is not exactly "charge" or "discharge", and yet the entry is not
    ignored: MATLAB's empty string is an array without items, reading its
    first item raises, and the file that gives one row without the entry
    gives none with it. *)
Lemma empty_label_is_not_ignored :
  other_typed unlabelled = true /\
  process_mat "B0005"
    (battery_file "B0005" [full_charge; full_discharge; unlabelled])
  = Raise IndexError /\
  exists r,
    process_mat "B0005" (battery_file "B0005" [full_charge; full_discharge])
    = Ok [r].
Proof.
  split; [reflexivity |]. split; [vm_compute; reflexivity |].
  eexists. vm_compute. reflexivity.
Qed.

(** C7, amended: entries that have a type label (a non-empty one) other than
    "charge" and "discharge" contribute nothing: two files whose cycle lists
    agree once such entries are taken out (so that one is obtained from the
    other by inserting, removing or moving them, the charge and the discharge
    entries keeping their order) give the same result, the one of the list
    without them; and when the remaining entries are well formed that result
    is the table of the charge and discharge entries alone, [min c d] rows
    long. *)
Theorem junk_entries_ignored (name : string) (mat1 mat2 : mat_dict)
  (cycles1 cycles2 : list cycle_struct) :
  locate_cycles mat1 = Ok (Some cycles1) ->
  locate_cycles mat2 = Ok (Some cycles2) ->
  filter not_junk cycles1 = filter not_junk cycles2 ->
  process_mat name mat1 = process_mat name mat2 /\
  process_mat name mat1 = process_cycles name (filter not_junk cycles1) /\
  (forallb entry_well_formed (filter not_junk cycles1) = true ->
   exists rows_charge rows_discharge df,
     outcomes (filter (has_type "charge") cycles1)
       = Ok (map ChargeRow rows_charge) /\
     outcomes (filter (has_type "discharge") cycles1)
       = Ok (map DischargeRow rows_discharge) /\
     process_mat name mat1 = Ok df /\
     process_mat name mat2 = Ok df /\
     List.length df
       = Nat.min (List.length (filter (has_type "charge") cycles1))
                 (List.length (filter (has_type "discharge") cycles1)) /\
     forall idx r,
       nth_error df idx = Some r ->
       dict_get "battery" r = Some (CStr name) /\
       dict_get "cycle" r = Some (CInt (Z.of_nat idx + 1)) /\
       dict_keys r = paired_columns /\
       forall k x,
         dict_get k (nth idx rows_charge []) = Some x \/
         dict_get k (nth idx rows_discharge []) = Some x ->
         dict_get k r = Some (CFloat x)).
Proof.
  intros H1 H2 Heq.
  assert (E1 : process_mat name mat1 = process_cycles name cycles1)
    by (unfold process_mat; rewrite H1; reflexivity).
  assert (E2 : process_mat name mat2 = process_cycles name cycles2)
    by (unfold process_mat; rewrite H2; reflexivity).
  assert (E12 : process_mat name mat1 = process_mat name mat2).
  { rewrite E1, E2.
    rewrite <- (process_cycles_filter_junk name cycles1).
    rewrite <- (process_cycles_filter_junk name cycles2).
    rewrite Heq. reflexivity. }
  split; [exact E12 |].
  split; [rewrite E1; symmetry; apply process_cycles_filter_junk |].
  intros Hwf.
  destruct (well_formed_table name cycles1 (well_formed_not_junk cycles1 Hwf))
    as (rc & rd & df & Hc & Hd & Hdf & Hlen & _ & Hrows).
  exists rc, rd, df.
  split; [exact Hc |]. split; [exact Hd |].
  split; [rewrite E1; exact Hdf |].
  split; [rewrite <- E12, E1; exact Hdf |].
  split; [exact Hlen | exact Hrows].
Qed.

Lemma junk_entries_ignored_witness :
  process_mat "B0005"
    (battery_file "B0005" [impedance; full_charge; impedance; full_discharge])
  = process_mat "B0005"
      (battery_file "B0005" [full_charge; full_discharge; impedance]) /\
  process_mat "B0005"
    (battery_file "B0005" [impedance; full_charge; impedance; full_discharge])
  = process_cycles "B0005"
      (filter not_junk [impedance; full_charge; impedance; full_discharge]) /\
  exists df,
    process_mat "B0005"
      (battery_file "B0005" [impedance; full_charge; impedance; full_discharge])
    = Ok df /\
    List.length df = 1.
Proof.
  destruct (junk_entries_ignored "B0005"
              (battery_file "B0005" [impedance; full_charge; impedance; full_discharge])
              (battery_file "B0005" [full_charge; full_discharge; impedance])
              [impedance; full_charge; impedance; full_discharge]
              [full_charge; full_discharge; impedance]
              eq_refl eq_refl eq_refl)
    as (Hsame & Hfiltered & Htable).
  split; [exact Hsame |]. split; [exact Hfiltered |].
  destruct (Htable eq_refl) as (rc & rd & df & _ & _ & Hdf & _ & Hlen & _).
  exists df. split; [exact Hdf | exact Hlen].
Defined.

(** ** Several variables in one record *)




(** ** Files without a usable structure *)





(** ** The RUL label *)

(** C3: when the loop of [main] has gathered the tables [all_dfs] of the
    files, at least one, the labeling step returns a table as long as their
    concatenation in which row [i] is row [i] of the concatenation with the
    cell RUL = [M - cycle] added, where [M] is the largest cycle value among
    the rows of the concatenation with the same battery name ([M] is attained
    by such a row and bounds them all); so every RUL is a non-negative
    integer, and it is 0 on every row that attains the maximum of its battery
    group. *)
Theorem rul_is_group_max_minus_cycle
  (loadmat : string -> result mat_dict) (basename : string -> string)
  (path_join : string -> string -> string)
  (walk : list (string * list string)) (all_dfs : list DataFrame) :
  for_each (dir_step loadmat basename path_join) walk [] = Ok all_dfs ->
  all_dfs <> [] ->
  exists t,
    main loadmat basename path_join walk = Ok (Some t) /\
    List.length t = List.length (List.concat all_dfs) /\
    forall i r,
      nth_error (List.concat all_dfs) i = Some r ->
      exists b c M,
        dict_get "battery" r = Some (CStr b) /\
        dict_get "cycle" r = Some (CInt c) /\
        nth_error t i = Some (dict_set "RUL" (CInt (M - c)) r) /\
        dict_get "RUL" (dict_set "RUL" (CInt (M - c)) r) = Some (CInt (M - c)) /\
        (exists rmax,
            In rmax (List.concat all_dfs) /\
            dict_get "battery" rmax = Some (CStr b) /\
            dict_get "cycle" rmax = Some (CInt M)) /\
        (forall r2 c2,
            In r2 (List.concat all_dfs) ->
            dict_get "battery" r2 = Some (CStr b) ->
            dict_get "cycle" r2 = Some (CInt c2) -> (c2 <= M)%Z) /\
        (0 <= M - c)%Z /\
        (c = M -> (M - c)%Z = 0%Z).
Proof.
  intros Hloop Hne.
  assert (Hkeyed : forallb keyed_row (List.concat all_dfs) = true)
    by (apply forallb_concat, (all_dfs_keyed loadmat basename path_join walk),
          Hloop).
  destruct (add_RUL_spec _ Hkeyed) as (t & Ht & Hlen & Hrows).
  exists t. split; [| split; [exact Hlen |]].
  - unfold main. rewrite Hloop. cbn [Py.bind].
    destruct all_dfs as [| df dfs]; [congruence |].
    rewrite Ht. reflexivity.
  - intros i r Hr.
    destruct (Hrows i r Hr) as (b & c & M & Hb & Hc & Hi & Hmax & Hub & Hpos & Hz).
    exists b, c, M.
    split; [exact Hb |]. split; [exact Hc |]. split; [exact Hi |].
    split; [apply dict_get_set_same |].
    split; [exact Hmax |]. split; [exact Hub |]. split; [exact Hpos | exact Hz].
Qed.

Lemma rul_is_group_max_minus_cycle_witness :
  exists all_dfs t,
    for_each (dir_step demo_loadmat posix_basename posix_join) demo_walk []
      = Ok all_dfs /\
    main demo_loadmat posix_basename posix_join demo_walk = Ok (Some t) /\
    List.length t = List.length (List.concat all_dfs) /\
    forall i r,
      nth_error (List.concat all_dfs) i = Some r ->
      exists b c M,
        dict_get "battery" r = Some (CStr b) /\
        dict_get "cycle" r = Some (CInt c) /\
        nth_error t i = Some (dict_set "RUL" (CInt (M - c)) r) /\
        dict_get "RUL" (dict_set "RUL" (CInt (M - c)) r) = Some (CInt (M - c)) /\
        (exists rmax,
            In rmax (List.concat all_dfs) /\
            dict_get "battery" rmax = Some (CStr b) /\
            dict_get "cycle" rmax = Some (CInt M)) /\
        (forall r2 c2,
            In r2 (List.concat all_dfs) ->
            dict_get "battery" r2 = Some (CStr b) ->
            dict_get "cycle" r2 = Some (CInt c2) -> (c2 <= M)%Z) /\
        (0 <= M - c)%Z /\
        (c = M -> (M - c)%Z = 0%Z).
Proof.
  eexists.
  assert (Hloop : for_each (dir_step demo_loadmat posix_basename posix_join)
                    demo_walk [] = Ok ?[all_dfs])
    by (vm_compute; reflexivity).
  destruct (rul_is_group_max_minus_cycle demo_loadmat posix_basename posix_join
              demo_walk _ Hloop)
    as (t & Ht & Hlen & Hrows); [discriminate |].
  exists t. repeat split; assumption.
Defined.

(** ** RUL with one file per battery *)

(** X11: when the files of a batch are all processed and one of them, with
    [n] paired rows, shares its battery name with no other, the table of
    [main] holds the rows of that file at their place in the order of the
    walk, row [idx] of the file with the added cell RUL = [n - (idx + 1)]: the
    RUL goes down by one per cycle and is 0 on the file's last pair; and
    every row of the table that carries that battery name has a cycle value
    between 1 and [n] and RUL = [n - cycle]. *)
Theorem rul_counts_down_within_file
  (loadmat : string -> result mat_dict) (basename : string -> string)
  (path_join : string -> string -> string)
  (walk : list (string * list string))
  (before after : list string) (p : string) (df : DataFrame) :
  (forall q, In q (mat_paths path_join walk) ->
     exists dfq, process_battery loadmat basename q = Ok dfq) ->
  mat_paths path_join walk = (before ++ p :: after)%list ->
  (forall q, In q (before ++ after) ->
     battery_name_of basename q <> battery_name_of basename p) ->
  process_battery loadmat basename p = Ok df ->
  df <> [] ->
  let n := Z.of_nat (List.length df) in
  let offset := List.length (flat_map (table_of loadmat basename) before) in
  exists t,
    main loadmat basename path_join walk = Ok (Some t) /\
    List.length t = List.length (batch_table loadmat basename path_join walk) /\
    (forall idx r0,
        nth_error df idx = Some r0 ->
        dict_get "cycle" r0 = Some (CInt (Z.of_nat idx + 1)) /\
        nth_error t (offset + idx)
          = Some (dict_set "RUL" (CInt (n - (Z.of_nat idx + 1))) r0)) /\
    (forall r,
        In r t ->
        dict_get "battery" r = Some (CStr (battery_name_of basename p)) ->
        exists c,
          dict_get "cycle" r = Some (CInt c) /\
          (1 <= c <= n)%Z /\
          dict_get "RUL" r = Some (CInt (n - c))).
Proof.
  intros Hok Hpaths Hdistinct Hdf Hne n offset.
  set (batch := batch_table loadmat basename path_join walk).
  assert (Hown : forall r0,
            In r0 batch ->
            dict_get "battery" r0 = Some (CStr (battery_name_of basename p)) ->
            exists idx, idx < List.length df /\
                        dict_get "cycle" r0 = Some (CInt (Z.of_nat idx + 1))).
  { intros r0 Hin Hb. unfold batch, batch_table in Hin.
    destruct (batch_table_row loadmat basename _ r0 Hin)
      as (q & dfq & idx & Hq & Hdfq & Hlt & _ & Hbq & Hcq).
    assert (Hname : battery_name_of basename q = battery_name_of basename p)
      by congruence.
    rewrite Hpaths in Hq. apply in_app_or in Hq.
    assert (q = p) as ->.
    { destruct Hq as [Hq | [Hq | Hq]]; [| auto |];
        exfalso; apply (Hdistinct q); auto using in_or_app. }
    assert (dfq = df) by congruence. subst dfq.
    exists idx. split; assumption. }
  destruct (process_battery_rows loadmat basename p df Hdf)
    as (rc & rd & Fc & Fd & E).
  assert (Hfile : forall idx r0,
            nth_error df idx = Some r0 ->
            dict_get "battery" r0 = Some (CStr (battery_name_of basename p)) /\
            dict_get "cycle" r0 = Some (CInt (Z.of_nat idx + 1))).
  { intros idx r0 Hr0. rewrite E in Hr0.
    destruct (paired_table_cells _ rc rd idx r0 Fc Fd Hr0) as (Hb & Hc & _).
    split; assumption. }
  assert (Hplace : forall idx r0,
            nth_error df idx = Some r0 ->
            nth_error batch (offset + idx) = Some r0).
  { intros idx r0 Hr0. unfold batch, batch_table. rewrite Hpaths, flat_map_app.
    cbn [flat_map]. unfold table_of at 2. rewrite Hdf. cbn [try_except].
    rewrite nth_error_app2 by (unfold offset; lia).
    replace (offset + idx - List.length (flat_map (table_of loadmat basename) before))
      with idx by (unfold offset; lia).
    rewrite nth_error_app1 by (apply nth_error_Some; congruence).
    exact Hr0. }
  assert (Hlast : exists rl,
            In rl batch /\
            dict_get "battery" rl = Some (CStr (battery_name_of basename p)) /\
            dict_get "cycle" rl = Some (CInt n)).
  { destruct (nth_error df (List.length df - 1)) as [rl |] eqn:Hrl.
    - exists rl. destruct (Hfile _ _ Hrl) as [Hb Hc].
      split; [eapply nth_error_In, Hplace, Hrl |]. split; [exact Hb |].
      rewrite Hc. unfold n. do 2 f_equal.
      assert (0 < List.length df) by (destruct df; [congruence | cbn; lia]).
      lia.
    - apply nth_error_None in Hrl.
      assert (0 < List.length df) by (destruct df; [congruence | cbn; lia]).
      lia. }
  destruct (add_RUL_spec _ (batch_table_keyed loadmat basename path_join walk))
    as (t & Ht & Hlen & Hrows).
  fold batch in Ht, Hlen, Hrows.
  assert (Hlabel : forall i r0,
            nth_error batch i = Some r0 ->
            dict_get "battery" r0 = Some (CStr (battery_name_of basename p)) ->
            exists c,
              dict_get "cycle" r0 = Some (CInt c) /\ (1 <= c <= n)%Z /\
              nth_error t i = Some (dict_set "RUL" (CInt (n - c)) r0)).
  { intros i r0 E0 Hb0.
    destruct (Hrows i r0 E0) as (b & c & M & Hb & Hc & Hi & Hmax & Hub & _).
    assert (b = battery_name_of basename p) by congruence. subst b.
    destruct (Hown r0 (nth_error_In _ _ E0) Hb0) as (idx & Hlt & Hcidx).
    assert (c = (Z.of_nat idx + 1)%Z) by congruence. subst c.
    assert (HM : M = n).
    { destruct Hmax as (rmax & Hinm & Hbm & Hcm).
      destruct (Hown rmax Hinm Hbm) as (im & Hltm & Hcm').
      assert (M = (Z.of_nat im + 1)%Z) by congruence.
      destruct Hlast as (rl & Hl & Hbl & Hcl).
      pose proof (Hub rl _ Hl Hbl Hcl). unfold n in *. lia. }
    exists (Z.of_nat idx + 1)%Z. rewrite <- HM.
    split; [exact Hc |]. split; [rewrite HM; unfold n; lia | exact Hi]. }
  exists t. split.
  { rewrite (main_all_ok loadmat basename path_join walk Hok). fold batch.
    destruct Hlast as (rl & Hl & _).
    destruct batch; [destruct Hl |]. rewrite Ht. reflexivity. }
  split; [exact Hlen |]. split.
  - intros idx r0 Hr0. destruct (Hfile idx r0 Hr0) as [Hb Hc].
    split; [exact Hc |].
    destruct (Hlabel _ r0 (Hplace idx r0 Hr0) Hb) as (c & Hc' & _ & Hi).
    assert (c = (Z.of_nat idx + 1)%Z) by congruence. subst c. exact Hi.
  - intros r Hin Hb. apply In_nth_error in Hin. destruct Hin as [i Hi].
    destruct (nth_error batch i) as [r0 |] eqn:E0.
    2:{ apply nth_error_None in E0.
        assert (i < List.length t) by (apply nth_error_Some; congruence). lia. }
    destruct (Hrows i r0 E0) as (b & c & M & _ & _ & Hi' & _).
    assert (Hr : r = dict_set "RUL" (CInt (M - c)) r0) by congruence.
    destruct (labelled_row_cells r0 (M - c)) as (Lb & _ & _).
    rewrite Hr, Lb in Hb.
    destruct (Hlabel i r0 E0 Hb) as (c' & Hc' & Hrange & Hi'').
    assert (Hr' : r = dict_set "RUL" (CInt (n - c')) r0) by congruence.
    destruct (labelled_row_cells r0 (n - c')) as (_ & Lc & Lr).
    exists c'. rewrite Hr', Lc, Lr. repeat split; try assumption; lia.
Qed.

Lemma rul_counts_down_within_file_witness :
  exists df t,
    process_battery lab_loadmat posix_basename "/lab/B5.mat" = Ok df /\
    main lab_loadmat posix_basename posix_join lab_walk = Ok (Some t) /\
    List.length t
      = List.length (batch_table lab_loadmat posix_basename posix_join lab_walk) /\
    (forall idx r0,
        nth_error df idx = Some r0 ->
        dict_get "cycle" r0 = Some (CInt (Z.of_nat idx + 1)) /\
        nth_error t (0 + idx)
          = Some (dict_set "RUL"
                    (CInt (Z.of_nat (List.length df) - (Z.of_nat idx + 1))) r0)) /\
    (forall r,
        In r t ->
        dict_get "battery" r
          = Some (CStr (battery_name_of posix_basename "/lab/B5.mat")) ->
        exists c,
          dict_get "cycle" r = Some (CInt c) /\
          (1 <= c <= Z.of_nat (List.length df))%Z /\
          dict_get "RUL" r = Some (CInt (Z.of_nat (List.length df) - c))).
Proof.
  eexists.
  assert (Hdf : process_battery lab_loadmat posix_basename "/lab/B5.mat"
                = Ok ?[df]) by (vm_compute; reflexivity).
  assert (Hok : forall q, In q (mat_paths posix_join lab_walk) ->
            exists dfq, process_battery lab_loadmat posix_basename q = Ok dfq).
  { intros q Hq. vm_compute in Hq.
    destruct Hq as [<- | [<- | []]]; eexists; vm_compute; reflexivity. }
  assert (Hdis : forall q, In q ([] ++ ["/lab/B6.mat"]) ->
            battery_name_of posix_basename q
            <> battery_name_of posix_basename "/lab/B5.mat").
  { intros q [<- | []]. vm_compute. discriminate. }
  destruct (rul_counts_down_within_file lab_loadmat posix_basename posix_join
              lab_walk [] ["/lab/B6.mat"] "/lab/B5.mat" _
              Hok eq_refl Hdis Hdf)
    as (t & Ht & Hlen & Hfile & Hrows); [discriminate |].
  exists t. repeat split; try assumption; apply Hfile; assumption.
Defined.
